(** * x_watch: a shallow embedding of [x_watch.py] and its checked properties

    The script polls the X API for the posts of one handle, remembers the
    newest identifier it has reported in [state.json], prints a summary and
    writes a report file.  This development embeds the script function by
    function and settles the properties its specification states.

    Conventions of the embedding.
    - A Python [str] is the list of its code points ([pystr]); [len] is
      [length], slicing is [firstn], [<] is the code-point lexicographic
      order.  ASCII literals are written [str "..."].
    - A value produced by [json.loads] or [Response.json()] is a [json];
      numbers are integers (a number with a fraction or an exponent is not
      representable); a [dict] is the list of its items in insertion order.
    - A file is modelled by what the script can observe of it: the value
      [json.loads] yields for its text ([Json v]), or text that [json.loads]
      rejects ([Text s]).  An HTTP body is modelled the same way.
    - Effects are explicit: a computation is a function from the [world]
      (the files and the log of effects so far) to a [result] and the new
      world.  The environment variables, the remote API and the clock are
      read from an [env].  Writing to the console and [write_text] on the
      state file are taken to succeed; [requests.get] returns a response or
      raises; [open] and [f.write] on the report file raise what the [env]
      says they raise.
    - What belongs to the Python runtime and libraries and is not fixed by
      the script ([str.lower], [datetime], the text of library exceptions,
      the order of sort keys that are not strings) is a field of the class
      [PyRuntime]; every theorem holds for every instance. *)

From Stdlib Require Import ZArith NArith Lia List String Ascii Bool.
From Stdlib Require Import Sorting.Sorted DecimalString.
From stdpp Require Import base decidable option list gmap.

Import ListNotations.
Local Open Scope Z_scope.
Local Open Scope list_scope.

Set Default Proof Using "Type".
Set Warnings "-register-all".

(** ** Python strings *)

Abbreviation pystr := (list N).

Definition str (s : string) : pystr :=
  List.map N_of_ascii (list_ascii_of_string s).

Definition LF : N := 10%N.
Definition SPACE : N := 32%N.
(** U+2026 HORIZONTAL ELLIPSIS and U+2014 EM DASH. *)
Definition ELLIPSIS : N := 8230%N.
Definition EM_DASH : N := 8212%N.

(** [a < b] on [str]: lexicographic on code points. *)
Fixpoint str_ltb (a b : pystr) : bool :=
  match a, b with
  | [], [] => false
  | [], _ :: _ => true
  | _ :: _, [] => false
  | x :: a', y :: b' =>
      if (x <? y)%N then true
      else if (y <? x)%N then false
      else str_ltb a' b'
  end.

(** [s.replace(old, new)] for a one-character [old]. *)
Definition replace_char (old : N) (new : pystr) (s : pystr) : pystr :=
  flat_map (fun c => if (c =? old)%N then new else [c]) s.

(** [str.isspace] of one character (CPython's [_PyUnicode_IsWhitespace]). *)
Definition is_space (c : N) : bool :=
  (((9 <=? c) && (c <=? 13)) || ((28 <=? c) && (c <=? 32))
   || (c =? 133) || (c =? 160) || (c =? 5760)
   || ((8192 <=? c) && (c <=? 8202))
   || (c =? 8232) || (c =? 8233) || (c =? 8239) || (c =? 8287)
   || (c =? 12288))%N.

Fixpoint lstrip (s : pystr) : pystr :=
  match s with
  | c :: s' => if is_space c then lstrip s' else s
  | [] => []
  end.

Definition rstrip (s : pystr) : pystr := rev (lstrip (rev s)).

(** [s.strip()] *)
Definition strip (s : pystr) : pystr := rstrip (lstrip s).

(** [str(n)] for a non-negative integer. *)
Definition str_of_nat (n : nat) : pystr :=
  str (NilEmpty.string_of_uint (Nat.to_uint n)).

(** ** JSON values and the Python operations the script applies to them *)

Inductive json : Type :=
| JNull
| JBool (b : bool)
| JInt (n : Z)
| JStr (s : pystr)
| JArr (items : list json)
| JObj (fields : list (pystr * json)).

Abbreviation dict := (list (pystr * json)).

Inductive exn : Type :=
| RuntimeError (msg : pystr)
| HTTPError (status : Z)
| RequestError (msg : pystr)
| JSONDecodeError
| KeyError (key : pystr)
| TypeError
| AttributeError (attr : pystr)
| ValueError
| FileNotFoundError.

Inductive result (A : Type) : Type :=
| Ok (a : A)
| Raise (e : exn).
Arguments Ok {A} a.
Arguments Raise {A} e.

(** [d.get(k)] on the items of a dict. *)
Fixpoint dict_get (k : pystr) (d : dict) : option json :=
  match d with
  | [] => None
  | (k', v) :: d' => if decide (k = k') then Some v else dict_get k d'
  end.

(** [d[k] = v]: an existing key keeps its position, a new one goes last. *)
Fixpoint dict_set (k : pystr) (v : json) (d : dict) : dict :=
  match d with
  | [] => [(k, v)]
  | (k', v') :: d' =>
      if decide (k = k') then (k, v) :: d' else (k', v') :: dict_set k v d'
  end.

(** [bool(v)] *)
Definition truthy (v : json) : bool :=
  match v with
  | JNull => false
  | JBool b => b
  | JInt n => negb (n =? 0)
  | JStr s => match s with [] => false | _ => true end
  | JArr l => match l with [] => false | _ => true end
  | JObj d => match d with [] => false | _ => true end
  end.

(** [v.get(k, default)]: only a dict has [get]. *)
Definition py_get (v : json) (k : pystr) (default : json) : result json :=
  match v with
  | JObj d => Ok (match dict_get k d with Some x => x | None => default end)
  | _ => Raise (AttributeError (str "get"))
  end.

(** [v[k]] for a string [k]: [KeyError] on a dict without the key,
    [TypeError] on every other value. *)
Definition py_item (v : json) (k : pystr) : result json :=
  match v with
  | JObj d => match dict_get k d with Some x => Ok x | None => Raise (KeyError k) end
  | _ => Raise TypeError
  end.

(** ** Pure computations that may raise *)

Definition rbind {A B : Type} (m : result A) (k : A -> result B) : result B :=
  match m with
  | Ok a => k a
  | Raise e => Raise e
  end.

Declare Scope py_scope.
Delimit Scope py_scope with py.
Notation "x <~ m ;; k" := (rbind m (fun x => k))
  (at level 100, m at next level, right associativity) : py_scope.
Local Open Scope py_scope.

(** ** [list.sort(key=...)]

    CPython first applies the key function to every item, in order, and then
    sorts the items by their keys with [<] only; the sort is stable.  For
    string keys the outcome is therefore the stable insertion sort below.
    Keys that are not all strings are compared by rules the script does not
    fix: that case is left to [sort_other_keys] of the runtime. *)

Fixpoint insert_by_key (k : pystr) (t : json) (l : list (pystr * json))
  : list (pystr * json) :=
  match l with
  | [] => [(k, t)]
  | (k', t') :: r =>
      if str_ltb k' k then (k', t') :: insert_by_key k t r
      else (k, t) :: (k', t') :: r
  end.

Fixpoint stable_sort (l : list (pystr * json)) : list (pystr * json) :=
  match l with
  | [] => []
  | (k, t) :: r => insert_by_key k t (stable_sort r)
  end.

(** The keys [t["id"]] of the items, the first failure raising. *)
Fixpoint id_keys (l : list json) : result (list (json * json)) :=
  match l with
  | [] => Ok []
  | t :: r =>
      k <~ py_item t (str "id") ;;
      kr <~ id_keys r ;;
      Ok ((k, t) :: kr)
  end.

Fixpoint str_keys (l : list (json * json)) : option (list (pystr * json)) :=
  match l with
  | [] => Some []
  | (JStr s, t) :: r =>
      match str_keys r with
      | Some sr => Some ((s, t) :: sr)
      | None => None
      end
  | _ :: _ => None
  end.

(** ** The Python runtime and libraries *)

Class PyRuntime := {
  (** [s.lower()] *)
  str_lower : pystr -> pystr;
  (** [str(v)] of a value that is not a [str], as an f-string renders it *)
  str_of_value : json -> pystr;
  (** [str(e)] of an exception the script did not construct itself *)
  str_of_exn : exn -> pystr;
  (** the sorted items for two or more keys that are not all strings, or
      [None] when a comparison raises [TypeError] *)
  sort_other_keys : list (json * json) -> option (list json);
  (** [datetime]: [fromisoformat], [dt + timedelta(hours=h)], [strftime] *)
  datetime : Type;
  fromisoformat : pystr -> result datetime;
  add_hours : datetime -> Z -> result datetime;
  strftime : datetime -> pystr -> pystr;
}.

(** ** The world: files, requests, console *)

Inductive content : Type :=
| Json (v : json)
| Text (s : pystr).

Record request := {
  url : pystr;
  headers_of : list (pystr * pystr);
  params : dict;
  timeout : Z;
}.

Record response := {
  status_code : Z;
  body : option json;
}.

Inductive event : Type :=
| FsExists (path : pystr)
| FsRead (path : pystr)
| FsWrite (path : pystr) (c : content)
| FsOpen (path : pystr)
| FsAppend (path : pystr) (s : pystr)
| NetGet (req : request)
| Print (line : pystr).

Record world := {
  files : gmap pystr content;
  log : list event;
}.

Record env := {
  (** [os.environ] *)
  environ : pystr -> option pystr;
  (** the answer of [requests.get]: a response, or the exception it raises *)
  network : request -> result response;
  (** [datetime.utcnow().strftime('%Y%m%dT%H%M%SZ')] at the time of the run *)
  utcnow : pystr;
  (** the exception [open(p, "w", encoding="utf-8")] raises, if it raises:
      a missing directory, a refused permission, ... *)
  open_error : pystr -> option exn;
  (** the exception [f.write(s)] raises on the file opened at [p], if it
      raises: text that UTF-8 cannot encode, a full disk, ... *)
  write_error : pystr -> pystr -> option exn;
}.

Definition Py (A : Type) : Type := world -> result A * world.

Definition ret {A : Type} (a : A) : Py A := fun w => (Ok a, w).

Definition raise {A : Type} (e : exn) : Py A := fun w => (Raise e, w).

Definition bind {A B : Type} (m : Py A) (k : A -> Py B) : Py B :=
  fun w =>
    match m w with
    | (Ok a, w') => k a w'
    | (Raise e, w') => (Raise e, w')
    end.

Notation "x <- m ;; k" := (bind m (fun x => k))
  (at level 100, m at next level, right associativity) : py_scope.
Notation "m ;;; k" := (bind m (fun _ => k))
  (at level 100, right associativity) : py_scope.

Definition lift {A : Type} (r : result A) : Py A := fun w => (r, w).

(** [try: m  except Exception as e: ...]: the outcome of [m] as a value. *)
Definition try {A : Type} (m : Py A) : Py (result A) :=
  fun w => let (r, w') := m w in (Ok r, w').

Definition emit (ev : event) (w : world) : world :=
  {| files := files w; log := log w ++ [ev] |}.

Definition print (line : pystr) : Py unit :=
  fun w => (Ok tt, emit (Print line) w).

Definition fs_exists (p : pystr) : Py bool :=
  fun w => (Ok (bool_decide (is_Some (files w !! p))), emit (FsExists p) w).

(** [Path.read_text] *)
Definition fs_read_text (p : pystr) : Py content :=
  fun w =>
    match files w !! p with
    | Some c => (Ok c, emit (FsRead p) w)
    | None => (Raise FileNotFoundError, emit (FsRead p) w)
    end.

(** [Path.write_text]: the file is created or replaced. *)
Definition fs_write_text (p : pystr) (c : content) : Py unit :=
  fun w =>
    (Ok tt, {| files := <[p := c]> (files w); log := log w ++ [FsWrite p c] |}).

(** [open(p, "w")]: the file is created, or emptied, unless [open] raises;
    then nothing is changed. *)
Definition fs_open (e : env) (p : pystr) : Py unit :=
  fun w =>
    match open_error e p with
    | Some ex => (Raise ex, w)
    | None =>
        (Ok tt, {| files := <[p := Text []]> (files w);
                   log := log w ++ [FsOpen p] |})
    end.

(** [f.write(s)] on a file opened by [fs_open]: the text is appended,
    unless the write raises; then the file keeps what it held. *)
Definition fs_append (e : env) (p : pystr) (s : pystr) : Py unit :=
  fun w =>
    match write_error e p s with
    | Some ex => (Raise ex, w)
    | None =>
        let old := match files w !! p with Some (Text t) => t | _ => [] end in
        (Ok tt, {| files := <[p := Text (old ++ s)]> (files w);
                   log := log w ++ [FsAppend p s] |})
    end.

Fixpoint for_each {A : Type} (l : list A) (f : A -> Py unit) : Py unit :=
  match l with
  | [] => ret tt
  | x :: r => f x ;;; for_each r f
  end.

(** ** The script *)

Section Script.
Context `{RT : PyRuntime}.
Variable e : env.

(** An f-string field [{v}]. *)
Definition fmt (v : json) : pystr :=
  match v with
  | JStr s => s
  | _ => str_of_value v
  end.

(** [str(e)] in the diagnostics: the message of a [RuntimeError] the script
    raised, the library's text otherwise. *)
Definition exn_str (ex : exn) : pystr :=
  match ex with
  | RuntimeError msg => msg
  | _ => str_of_exn ex
  end.

Definition STATE_FILE : pystr := str "state.json".

Definition HANDLE : pystr :=
  match environ e (str "HANDLE") with
  | Some h => h
  | None => str "Thekokocrypto"
  end.

Definition BEARER : option pystr := environ e (str "X_BEARER_TOKEN").

Definition BASE : pystr := str "https://api.x.com/2".

Definition MISSING_TOKEN : pystr := str "Missing X_BEARER_TOKEN in environment.".

Definition FORBIDDEN_HINT : pystr :=
  str "403 Forbidden. Your API tier might not allow this endpoint or parameters.".

Definition wib_time (iso_str : json) : result pystr :=
  match iso_str with
  | JStr s =>
      dt <~ fromisoformat (replace_char 90%N (str "+00:00") s) ;;
      wib <~ add_hours dt 7 ;;
      Ok (strftime wib (str "%Y-%m-%d %H:%M:%S WIB"))
  | _ => Raise (AttributeError (str "replace"))
  end.

Definition headers : result (list (pystr * pystr)) :=
  match BEARER with
  | None | Some [] => Raise (RuntimeError MISSING_TOKEN)
  | Some b => Ok [(str "Authorization", str "Bearer " ++ b)]
  end.

Definition requests_get (req : request) : Py response :=
  fun w => (network e req, emit (NetGet req) w).

(** [r.raise_for_status()]: [HTTPError] for the statuses 400 to 599. *)
Definition is_error_status (s : Z) : bool := (400 <=? s) && (s <? 600).

Definition raise_for_status (r : response) : result unit :=
  if is_error_status (status_code r) then Raise (HTTPError (status_code r))
  else Ok tt.

(** [r.json()] *)
Definition response_json (r : response) : result json :=
  match body r with
  | Some v => Ok v
  | None => Raise JSONDecodeError
  end.

Definition user_request (username : pystr) (h : list (pystr * pystr)) : request :=
  {| url := BASE ++ str "/users/by/username/" ++ username;
     headers_of := h;
     params := [(str "user.fields", JStr (str "name,username"))];
     timeout := 30 |}.

Definition get_user_id (username : pystr) : Py json :=
  h <- lift headers ;;
  r <- requests_get (user_request username h) ;;
  lift (_ <~ raise_for_status r ;;
        data <~ response_json r ;;
        d <~ py_item data (str "data") ;;
        py_item d (str "id")).

Definition load_state : Py json :=
  ex <- fs_exists STATE_FILE ;;
  if (ex : bool) then
    c <- fs_read_text STATE_FILE ;;
    match c with
    | Json v => ret v
    | Text _ => raise JSONDecodeError
    end
  else ret (JObj []).

Definition save_state (state : json) : Py unit :=
  fs_write_text STATE_FILE (Json state).

Definition tweets_params (since_id : json) : dict :=
  let params :=
    [(str "max_results", JInt 25);
     (str "exclude", JStr (str "retweets,replies"));
     (str "tweet.fields", JStr (str "created_at,public_metrics,lang"))] in
  if truthy since_id then dict_set (str "since_id") since_id params
  else params.

Definition tweets_request (user_id since_id : json) (h : list (pystr * pystr))
  : request :=
  {| url := BASE ++ str "/users/" ++ fmt user_id ++ str "/tweets";
     headers_of := h;
     params := tweets_params since_id;
     timeout := 30 |}.

(** [tweets.sort(key=lambda t: t["id"])] *)
Definition sort_by_id (tweets : list json) : result (list json) :=
  keyed <~ id_keys tweets ;;
  match str_keys keyed with
  | Some sk => Ok (List.map snd (stable_sort sk))
  | None =>
      match keyed with
      | [] | [_] => Ok tweets
      | _ =>
          match sort_other_keys keyed with
          | Some sorted => Ok sorted
          | None => Raise TypeError
          end
      end
  end.

Definition fetch_new_tweets (user_id since_id : json) : Py (list json) :=
  h <- lift headers ;;
  r <- requests_get (tweets_request user_id since_id h) ;;
  if status_code r =? 403 then raise (RuntimeError FORBIDDEN_HINT)
  else
    lift (_ <~ raise_for_status r ;;
          data <~ response_json r ;;
          tweets <~ py_get data (str "data") (JArr []) ;;
          match tweets with
          | JArr l => sort_by_id l
          | _ => Raise (AttributeError (str "sort"))
          end).

(** [.strip().replace(LF, SPACE)] on the text of a post. *)
Definition clean_text (text : pystr) : pystr :=
  replace_char LF [SPACE] (strip text).

(** [(text[:120] + "…") if len(text) > 120 else text] *)
Definition preview_of (text : pystr) : pystr :=
  if (120 <? length text)%nat then firstn 120 text ++ [ELLIPSIS] else text.

Definition summarize (t : json) : result pystr :=
  created_utc <~ py_item t (str "created_at") ;;
  raw <~ py_get t (str "text") (JStr []) ;;
  text <~ match raw with
          | JStr s => Ok (clean_text s)
          | _ => Raise (AttributeError (str "strip"))
          end ;;
  let preview := preview_of text in
  id <~ py_item t (str "id") ;;
  let url := str "https://x.com/" ++ HANDLE ++ str "/status/" ++ fmt id in
  ts <~ wib_time created_utc ;;
  Ok (str "- " ++ ts ++ str " | " ++ preview ++ [LF] ++ str "  " ++ url).

(** [state.setdefault(handle_key, {})["since_id"] = newest_id] *)
Definition set_since_id (state : json) (handle_key : pystr) (newest_id : json)
  : result json :=
  match state with
  | JObj d =>
      match dict_get handle_key d with
      | None =>
          Ok (JObj (dict_set handle_key (JObj [(str "since_id", newest_id)]) d))
      | Some (JObj rec) =>
          Ok (JObj (dict_set handle_key
                      (JObj (dict_set (str "since_id") newest_id rec)) d))
      | Some _ => Raise TypeError
      end
  | _ => Raise (AttributeError (str "setdefault"))
  end.

Definition report_name : pystr :=
  str "report_" ++ HANDLE ++ str "_" ++ utcnow e ++ str ".md".

(** The end of [main]: the summary on the console and the report file. *)
Definition render (new_tweets : list json) : Py Z :=
  print (str "@" ++ HANDLE ++ [SPACE; EM_DASH; SPACE]
         ++ str_of_nat (length new_tweets) ++ str " new post(s):") ;;;
  for_each new_tweets (fun t => line <- lift (summarize t) ;; print line) ;;;
  fs_open e report_name ;;;
  fs_append e report_name (str "# Updates for @" ++ HANDLE ++ [LF; LF]) ;;;
  for_each new_tweets
    (fun t => line <- lift (summarize t) ;;
              fs_append e report_name (line ++ [LF])) ;;;
  print ([LF] ++ str "Saved report: " ++ report_name) ;;;
  ret 0.

(** The part of [main] after the [if not new_tweets] test: the watermark is
    advanced and saved, then the summary is rendered. *)
Definition report (state : json) (handle_key : pystr) (new_tweets : list json)
  : Py Z :=
  newest_id <- lift (py_item (List.last new_tweets JNull) (str "id")) ;;
  state' <- lift (set_since_id state handle_key newest_id) ;;
  save_state state' ;;;
  render new_tweets.

Definition main : Py Z :=
  state <- load_state ;;
  let handle_key := str_lower HANDLE in
  rec <- lift (py_get state handle_key (JObj [])) ;;
  last_id <- lift (py_get rec (str "since_id") JNull) ;;
  resolved <- try (get_user_id HANDLE) ;;
  match resolved with
  | Raise ex =>
      print (str "[ERROR] Failed to resolve user id for @" ++ HANDLE
             ++ str ": " ++ exn_str ex) ;;;
      ret 1
  | Ok user_id =>
      fetched <- try (fetch_new_tweets user_id last_id) ;;
      match fetched with
      | Raise ex =>
          print (str "[ERROR] Failed to fetch tweets: " ++ exn_str ex) ;;;
          ret 1
      | Ok [] =>
          print (str "No new posts since last check.") ;;;
          ret 0
      | Ok new_tweets => report state handle_key new_tweets
      end
  end.

(** The exit status of the process: the value [main] returns, or 1 when an
    exception leaves [main]. *)
Definition exit_status (r : result Z) : Z :=
  match r with
  | Ok code => code
  | Raise _ => 1
  end.

End Script.

(** ** Notions the properties are stated with *)

Section Notions.
Context `{RT : PyRuntime}.

(** The key of the watermark record: [HANDLE.lower()]. *)
Definition handle_key (e : env) : pystr := str_lower (HANDLE e).

(** What [load_state] finds in a world: [{}] when there is no state file,
    nothing when its text is not JSON. *)
Definition persisted (w : world) : option json :=
  match files w !! STATE_FILE with
  | None => Some (JObj [])
  | Some (Json v) => Some v
  | Some (Text _) => None
  end.

(** The [since_id] stored for a key. *)
Definition stored_since_id (hk : pystr) (w : world) : option json :=
  match persisted w with
  | Some (JObj d) =>
      match dict_get hk d with
      | Some (JObj rec) => dict_get (str "since_id") rec
      | _ => None
      end
  | _ => None
  end.

(** The number a numeric-string identifier denotes. *)
Fixpoint digits_val (acc : N) (s : pystr) : option N :=
  match s with
  | [] => Some acc
  | c :: r =>
      if ((48 <=? c) && (c <=? 57))%N then digits_val (10 * acc + (c - 48))%N r
      else None
  end.

Definition id_num (v : json) : option N :=
  match v with
  | JStr (c :: r) => digits_val 0%N (c :: r)
  | _ => None
  end.

Definition tweet_id (t : json) : option json :=
  match t with
  | JObj d => dict_get (str "id") d
  | _ => None
  end.

Definition tweet_id_num (t : json) : option N :=
  match tweet_id t with
  | Some v => id_num v
  | None => None
  end.

(** The watermark of a key: the number its stored [since_id] denotes. *)
Definition watermark (hk : pystr) (w : world) : option N :=
  match stored_since_id hk w with
  | Some v => id_num v
  | None => None
  end.

(** Order on watermarks: an absent watermark is below every other. *)
Definition wm_le (a b : option N) : Prop :=
  match a, b with
  | None, _ => True
  | Some x, Some y => (x <= y)%N
  | Some _, None => False
  end.

(** The contract of the API's [since_id] parameter: a response to a request
    that carries a numeric [since_id] lists only posts with a larger
    identifier. *)
Definition honours_since_id (net : request -> result response) : Prop :=
  forall req r since n d items,
    net req = Ok r ->
    dict_get (str "since_id") (params req) = Some since ->
    id_num since = Some n ->
    body r = Some (JObj d) ->
    dict_get (str "data") d = Some (JArr items) ->
    Forall (fun t => exists m, tweet_id_num t = Some m /\ (n < m)%N) items.

(** The worlds a sequence of runs goes through, the first one included. *)
Fixpoint history (es : list env) (w : world) : list world :=
  match es with
  | [] => [w]
  | e :: es' => w :: history es' (snd (main e w))
  end.

(** The events a computation added to the log. *)
Definition new_events {A : Type} (m : Py A) (w : world) : list event :=
  drop (length (log w)) (log (snd (m w))).

Definition is_net_event (ev : event) : bool :=
  match ev with NetGet _ => true | _ => false end.

(** The lines printed, in order. *)
Definition printed (evs : list event) : list pystr :=
  flat_map (fun ev => match ev with Print line => [line] | _ => [] end) evs.

(** Events that change a file. *)
Definition is_write_event (ev : event) : bool :=
  match ev with FsWrite _ _ | FsOpen _ | FsAppend _ _ => true | _ => false end.

(** Events that touch the file system or the network. *)
Definition is_io_event (ev : event) : bool :=
  match ev with Print _ => false | _ => true end.

(** The file-system events of [load_state], and the world it leaves. *)
Definition load_events (w : world) : list event :=
  match files w !! STATE_FILE with
  | None => [FsExists STATE_FILE]
  | Some _ => [FsExists STATE_FILE; FsRead STATE_FILE]
  end.

Definition after_load (w : world) : world :=
  {| files := files w; log := log w ++ load_events w |}.

(** The first statements of [main] succeed: the state loads as [state] and
    the last identifier found for the handle is [last_id] ([JNull] for
    Python's [None]). *)
Definition loads (e : env) (w : world) (state last_id : json) : Prop :=
  exists rec,
    persisted w = Some state
    /\ py_get state (handle_key e) (JObj []) = Ok rec
    /\ py_get rec (str "since_id") JNull = Ok last_id.

Definition NO_NEW_POSTS : pystr := str "No new posts since last check.".

(** The line [main] prints when the user lookup fails for want of a token. *)
Definition missing_token_diagnostic (e : env) : pystr :=
  str "[ERROR] Failed to resolve user id for @" ++ HANDLE e
  ++ str ": " ++ MISSING_TOKEN.

(** A run that stops on a configuration error before any I/O: a non-zero
    exit status, a diagnostic printed, and no file-system or network event. *)
Definition fails_before_io (m : Py Z) (w : world) : Prop :=
  exit_status (fst (m w)) <> 0
  /\ (exists line, In (Print line) (new_events m w))
  /\ Forall (fun ev => is_io_event ev = false) (new_events m w).

(** A computation whose result and events are the same in every world. *)
Definition world_blind {A : Type} (m : Py A) (r : result A) (evs : list event)
  : Prop :=
  forall w, fst (m w) = r /\ log (snd (m w)) = log w ++ evs.

Definition blind {A : Type} (m : Py A) : Prop :=
  exists r evs, world_blind m r evs.

(** In the order [<] of strings, the key of [b] is not below that of [a]. *)
Definition key_le (a b : pystr * json) : Prop := str_ltb (fst b) (fst a) = false.

(** A computation that leaves the state file as it is. *)
Definition keeps_state_file {A : Type} (m : Py A) : Prop :=
  forall w, files (snd (m w)) !! STATE_FILE = files w !! STATE_FILE.

(** A success status as the specification reads it: 200 to 299. *)
Definition spec_success_status (s : Z) : bool := (200 <=? s) && (s <? 300).

(** The truncation law as the specification words it, on the text of the
    post as fetched. *)
Definition nl_to_space (c : N) : N := if (c =? LF)%N then SPACE else c.

Definition spec_preview (text : pystr) : pystr :=
  if (length text <=? 120)%nat then List.map nl_to_space text
  else firstn 120 (List.map nl_to_space text) ++ [ELLIPSIS].

End Notions.

(** ** Worked inputs *)

Module Examples.

Definition ascii_lower (s : pystr) : pystr :=
  List.map (fun c => if ((65 <=? c) && (c <=? 90))%N then (c + 32)%N else c) s.

(** A runtime for the worked inputs: ASCII lower-casing, timestamps kept as
    their text, no order on keys that are not strings. *)
#[local] Instance runtime : PyRuntime := {|
  str_lower := ascii_lower;
  str_of_value := fun _ => str "<value>";
  str_of_exn := fun _ => str "<exception>";
  sort_other_keys := fun _ => None;
  datetime := pystr;
  fromisoformat := fun s => Ok s;
  add_hours := fun d _ => Ok d;
  strftime := fun d _ => d;
|}.

Definition tweet (id : string) (text : pystr) : json :=
  JObj [(str "id", JStr (str id));
        (str "created_at", JStr (str "2024-01-01T00:00:00Z"));
        (str "text", JStr text)].

Definition user_body : json :=
  JObj [(str "data", JObj [(str "id", JStr (str "42"))])].

Definition ok_response (v : json) : result response :=
  Ok {| status_code := 200; body := Some v |}.

(** An API double: the user lookup answers with [user_body]; the timeline
    answers with [first_page] to a request without [since_id] and with
    [next_page] to one with it. *)
Definition api (first_page next_page : json) (req : request) : result response :=
  match dict_get (str "user.fields") (params req) with
  | Some _ => ok_response user_body
  | None =>
      match dict_get (str "since_id") (params req) with
      | None => ok_response first_page
      | Some _ => ok_response next_page
      end
  end.

Definition page (items : list json) : json := JObj [(str "data", JArr items)].

(** An API double that honours [since_id]: the timeline answers with the
    posts of [posts] (newest first) whose identifier is above a numeric
    [since_id], and with all of them otherwise. *)
Definition newer_than (since : json) (t : json) : bool :=
  match id_num since, tweet_id_num t with
  | Some n, Some m => (n <? m)%N
  | Some _, None => false
  | None, _ => true
  end.

Definition timeline (posts : list json) (req : request) : result response :=
  match dict_get (str "user.fields") (params req) with
  | Some _ => ok_response user_body
  | None =>
      match dict_get (str "since_id") (params req) with
      | Some since => ok_response (page (List.filter (newer_than since) posts))
      | None => ok_response (page posts)
      end
  end.

Definition environment (token : option pystr) (key : pystr) : option pystr :=
  if decide (key = str "X_BEARER_TOKEN") then token
  else if decide (key = str "HANDLE") then Some (str "Alice")
  else None.

Definition env_of (token : option pystr) (net : request -> result response) : env :=
  {| environ := environment token; network := net;
     utcnow := str "20240101T000000Z";
     open_error := fun _ => None; write_error := fun _ _ => None |}.

(** An API that answers every request with one status and no JSON body. *)
Definition status_api (s : Z) (req : request) : result response :=
  Ok {| status_code := s; body := None |}.

Definition bearer_header : list (pystr * pystr) :=
  [(str "Authorization", str "Bearer token")].

Definition empty_world : world := {| files := ∅; log := [] |}.

Definition world_with (c : content) : world :=
  {| files := {[ STATE_FILE := c ]}; log := [] |}.

(** A persisted state with a record for another handle and, in the record
    of [alice], a field the script does not know. *)
Definition kept_state : dict :=
  [(str "bob", JObj [(str "since_id", JStr (str "7"))]);
   (str "alice", JObj [(str "since_id", JStr (str "12"));
                       (str "note", JStr (str "keep"))])].

(** Two runs for [@Alice]: the first sees the posts 10, 12 and 11, the second
    one more, 13. *)
Definition first_run : env :=
  env_of (Some (str "token"))
    (timeline [tweet "10" (str "a"); tweet "12" (str "b"); tweet "11" (str "c")]).

Definition second_run : env :=
  env_of (Some (str "token"))
    (timeline [tweet "13" (str "d"); tweet "10" (str "a");
               tweet "12" (str "b"); tweet "11" (str "c")]).

(** A first run that sees an 18-digit identifier and the 19-digit one that
    follows it, newest first. *)
Definition rollover_run : env :=
  env_of (Some (str "token"))
    (timeline [tweet "1000000000000000000" (str "new");
               tweet "999999999999999999" (str "old")]).

End Examples.

(** ** Notions for the further properties *)

Section MoreNotions.
Context `{RT : PyRuntime}.

(** The number of requests among some events. *)
Definition net_calls (evs : list event) : nat :=
  length (List.filter is_net_event evs).

(** The events a run of the script may produce: the state file is looked at,
    read and written; the report file of the run is opened and appended to;
    a request is the user lookup or a timeline request, with the headers
    [headers()] returns; anything may be printed. *)
Definition allowed_event (e : env) (ev : event) : Prop :=
  match ev with
  | FsExists p | FsRead p | FsWrite p _ => p = STATE_FILE
  | FsOpen p | FsAppend p _ => p = report_name e
  | NetGet req =>
      exists h,
        headers e = Ok h
        /\ (req = user_request (HANDLE e) h
            \/ exists user_id since_id, req = tweets_request user_id since_id h)
  | Print _ => True
  end.

(** A computation that only adds events to the log: at most [n] requests,
    and only events that satisfy [Q]. *)
Definition emits {A : Type} (m : Py A) (n : nat) (Q : event -> Prop) : Prop :=
  forall w, exists evs,
    log (snd (m w)) = log w ++ evs /\ (net_calls evs <= n)%nat /\ Forall Q evs.

(** A computation that leaves the file at [p] as it is. *)
Definition keeps_path {A : Type} (p : pystr) (m : Py A) : Prop :=
  forall w, files (snd (m w)) !! p = files w !! p.

(** The lines [summarize] renders for a list of posts, the first failure
    raising. *)
Fixpoint summaries (e : env) (l : list json) : result (list pystr) :=
  match l with
  | [] => Ok []
  | t :: r =>
      line <~ summarize e t ;;
      rest <~ summaries e r ;;
      Ok (line :: rest)
  end.

(** The first line of the console summary, its last line, and the text of
    the report file for given rendered lines. *)
Definition summary_header (e : env) (n : nat) : pystr :=
  str "@" ++ HANDLE e ++ [SPACE; EM_DASH; SPACE] ++ str_of_nat n
  ++ str " new post(s):".

Definition saved_line (e : env) : pystr :=
  [LF] ++ str "Saved report: " ++ report_name e.

Definition report_text (e : env) (lines : list pystr) : pystr :=
  (str "# Updates for @" ++ HANDLE e ++ [LF; LF])
  ++ concat (List.map (fun line => line ++ [LF]) lines).

(** The results [main] can have: 0, 1, or an exception. *)
Definition zero_one_or_raise (r : result Z) : Prop :=
  r = Ok 0 \/ r = Ok 1 \/ exists ex, r = Raise ex.

(** Posts with a string identifier; posts with a numeric identifier of [n]
    digits. *)
Definition has_str_id (t : json) : Prop :=
  exists s, tweet_id t = Some (JStr s).

Definition has_num_id (n : nat) (t : json) : Prop :=
  exists s v,
    tweet_id t = Some (JStr s) /\ length s = n /\ digits_val 0%N s = Some v.

(** The identifier of [b] is not below that of [a]: as strings, as numbers. *)
Definition id_str_le (a b : json) : Prop :=
  exists s1 s2,
    tweet_id a = Some (JStr s1) /\ tweet_id b = Some (JStr s2)
    /\ str_ltb s2 s1 = false.

Definition id_num_le (a b : json) : Prop :=
  exists x y,
    tweet_id_num a = Some x /\ tweet_id_num b = Some y /\ (x <= y)%N.

End MoreNotions.

Module MoreExamples.
Import Examples.

(** An API double whose user lookup succeeds and whose timeline answers
    with the status [s] and no JSON body. *)
Definition timeline_status (s : Z) (req : request) : result response :=
  match dict_get (str "user.fields") (params req) with
  | Some _ => ok_response user_body
  | None => Ok {| status_code := s; body := None |}
  end.

(** A post without [created_at]. *)
Definition undated_tweet (id : string) : json :=
  JObj [(str "id", JStr (str id)); (str "text", JStr (str "gm"))].

(** A run whose timeline lists one post that cannot be rendered. *)
Definition undated_run : env :=
  env_of (Some (str "token")) (timeline [undated_tweet "10"]).

(** A run for the handle [a/b], whose report file lies in a directory that
    does not exist: [open] raises. *)
Definition slash_run : env :=
  {| environ := fun key =>
       if decide (key = str "X_BEARER_TOKEN") then Some (str "token")
       else if decide (key = str "HANDLE") then Some (str "a/b")
       else None;
     network := timeline [tweet "10" (str "gm")];
     utcnow := str "20240101T000000Z";
     open_error := fun _ => Some FileNotFoundError;
     write_error := fun _ _ => None |}.

(** An API double whose user lookup succeeds and whose timeline answers
    with the status [s] and the posts [posts]. *)
Definition timeline_with_status (s : Z) (posts : list json) (req : request)
  : result response :=
  match dict_get (str "user.fields") (params req) with
  | Some _ => ok_response user_body
  | None => Ok {| status_code := s; body := Some (page posts) |}
  end.

(** A run whose timeline answers 304 with a post in the body. *)
Definition not_modified_run : env :=
  env_of (Some (str "token")) (timeline_with_status 304 [tweet "10" (str "gm")]).

(** A response of the user lookup. *)
Definition lookup_response (s : Z) (v : option json) : response :=
  {| status_code := s; body := v |}.

Definition lookup_api (r : response) (req : request) : result response := Ok r.

End MoreExamples.

(** ** Basic facts *)

Ltac py_unfold :=
  unfold bind, lift, ret, raise, try, print, requests_get, fs_exists,
    fs_read_text, fs_write_text, fs_open, fs_append, rbind in *.

Lemma bind_ok {A B : Type} (m : Py A) (k : A -> Py B) (w w' : world) (a : A) :
  m w = (Ok a, w') -> bind m k w = k a w'.
Proof. unfold bind. by intros ->. Qed.

Lemma bind_raise {A B : Type} (m : Py A) (k : A -> Py B) (w w' : world)
    (ex : exn) :
  m w = (Raise ex, w') -> bind m k w = (Raise ex, w').
Proof. unfold bind. by intros ->. Qed.

Lemma try_eq {A : Type} (m : Py A) (w w' : world) (r : result A) :
  m w = (r, w') -> try m w = (Ok r, w').
Proof. unfold try. by intros ->. Qed.

Lemma dict_get_set_eq (k : pystr) (v : json) (d : dict) :
  dict_get k (dict_set k v d) = Some v.
Proof.
  induction d as [|[k' v'] d IH]; simpl.
  - by rewrite decide_True.
  - destruct (decide (k = k')) as [->|Hne]; simpl.
    + by rewrite decide_True.
    + by rewrite decide_False.
Qed.

Lemma dict_get_set_ne (k k' : pystr) (v : json) (d : dict) :
  k <> k' -> dict_get k' (dict_set k v d) = dict_get k' d.
Proof.
  intros Hne. induction d as [|[k0 v0] d IH]; simpl.
  - rewrite decide_False; [done | congruence].
  - destruct (decide (k = k0)) as [->|Hk]; simpl.
    + rewrite !decide_False; [done | congruence | congruence].
    + by rewrite IH.
Qed.

Lemma replace_newlines_map (s : pystr) :
  replace_char LF [SPACE] s = List.map nl_to_space s.
Proof.
  induction s as [|c s IH]; simpl; [done|].
  unfold nl_to_space at 1. rewrite <- IH.
  by destruct (c =? LF)%N.
Qed.

Lemma nl_to_space_not_LF (s : pystr) : ~ In LF (List.map nl_to_space s).
Proof.
  intros Hin. apply in_map_iff in Hin as (c & Hc & _).
  unfold nl_to_space in Hc.
  destruct (N.eqb_spec c LF) as [_|Hne]; [discriminate | done].
Qed.

Lemma In_firstn_In {A : Type} (x : A) (n : nat) (l : list A) :
  In x (firstn n l) -> In x l.
Proof.
  revert l. induction n as [|n IH]; intros [|y l]; simpl; try done.
  intros [->|Hin]; [by left | right; by apply IH].
Qed.

Section Facts.
Context `{RT : PyRuntime}.

(** The line [summarize] renders holds the preview of the cleaned text. *)
Lemma summarize_line (e : env) (t : json) (line : pystr) :
  summarize e t = Ok line ->
  exists ts text id,
    py_get t (str "text") (JStr []) = Ok (JStr text) /\
    py_item t (str "id") = Ok id /\
    line = str "- " ++ ts ++ str " | " ++ preview_of (clean_text text)
           ++ [LF] ++ str "  "
           ++ (str "https://x.com/" ++ HANDLE e ++ str "/status/" ++ fmt id).
Proof.
  unfold summarize, rbind. intros Hs.
  destruct (py_item t (str "created_at")) as [created|]; [|done].
  destruct (py_get t (str "text") (JStr [])) as [raw|]; [|done].
  destruct raw as [| | |text| |]; try done.
  destruct (py_item t (str "id")) as [id|]; [|done].
  destruct (wib_time created) as [ts|]; [|done].
  exists ts, text, id. by inversion Hs.
Qed.

(** The exceptions [sort_by_id] can raise. *)
Lemma id_keys_exn (l : list json) (ex : exn) :
  id_keys l = Raise ex -> ex = TypeError \/ ex = KeyError (str "id").
Proof.
  induction l as [|t l IH]; simpl; [done|]. unfold rbind.
  destruct (py_item t (str "id")) as [k|ex'] eqn:Hk.
  - destruct (id_keys l); [done|]. intros [= <-]. by apply IH.
  - intros [= <-]. unfold py_item in Hk.
    destruct t; try (inversion Hk; by left).
    destruct (dict_get _ _); inversion Hk. by right.
Qed.

Lemma sort_by_id_exn (l : list json) (ex : exn) :
  sort_by_id l = Raise ex -> ex = TypeError \/ ex = KeyError (str "id").
Proof.
  unfold sort_by_id, rbind.
  destruct (id_keys l) as [keyed|ex'] eqn:Hk.
  - destruct (str_keys keyed); [done|].
    destruct keyed as [|? [|? ?]]; try done.
    destruct (sort_other_keys _); [done|]. intros [= <-]. by left.
  - intros [= <-]. by eapply id_keys_exn.
Qed.

End Facts.

(** ** C5: the truncation law *)

(** C5, as stated, fails: the preview is cut from the text after [strip()],
    so a text with a leading blank is not rendered verbatim. *)
Lemma preview_not_verbatim :
  preview_of (clean_text (str " a")) <> spec_preview (str " a").
Proof. vm_compute. discriminate. Qed.

(** C5, amended: the truncation law holds of the text once its leading and
    trailing whitespace is stripped.  With [s = text.strip()]: if [s] has at
    most 120 characters the preview is [s] with its newlines replaced by
    spaces; if it has more, the preview is the first 120 characters of that
    followed by the ellipsis; the preview never holds a newline. *)
Theorem preview_law_after_strip (text : pystr) :
  preview_of (clean_text text) = spec_preview (strip text)
  /\ (length (strip text) <= 120
      -> preview_of (clean_text text) = List.map nl_to_space (strip text))%nat
  /\ (120 < length (strip text)
      -> preview_of (clean_text text)
         = firstn 120 (List.map nl_to_space (strip text)) ++ [ELLIPSIS])%nat
  /\ ~ In LF (preview_of (clean_text text)).
Proof.
  unfold preview_of, clean_text, spec_preview.
  rewrite replace_newlines_map, length_map.
  repeat split.
  - destruct (Nat.ltb_spec 120 (length (strip text)));
      destruct (Nat.leb_spec (length (strip text)) 120); (done || lia).
  - intros Hle. destruct (Nat.ltb_spec 120 (length (strip text))); [lia | done].
  - intros Hlt. destruct (Nat.ltb_spec 120 (length (strip text))); [done | lia].
  - destruct (Nat.ltb_spec 120 (length (strip text))).
    + intros Hin. apply in_app_or in Hin as [Hin|[Heq|[]]].
      * apply In_firstn_In in Hin. by apply nl_to_space_not_LF in Hin.
      * discriminate.
    + apply nl_to_space_not_LF.
Qed.

Example preview_short :
  preview_of (clean_text (str "  gm" ++ [LF] ++ str "frens ")) = str "gm frens".
Proof. reflexivity. Qed.

(** The law at a short text and at one of 130 characters. *)
Lemma preview_law_after_strip_witness :
  preview_of (clean_text (str "  gm" ++ [LF] ++ str "frens "))
    = List.map nl_to_space (strip (str "  gm" ++ [LF] ++ str "frens "))
  /\ preview_of (clean_text (repeat 97%N 130))
    = firstn 120 (List.map nl_to_space (strip (repeat 97%N 130))) ++ [ELLIPSIS].
Proof.
  split.
  - apply (proj1 (proj2 (preview_law_after_strip _))). vm_compute.
    repeat constructor.
  - apply (proj1 (proj2 (proj2 (preview_law_after_strip _)))). vm_compute.
    repeat constructor.
Defined.

(** ** The two requests *)

Section Requests.
Context `{RT : PyRuntime}.
Variable e : env.

Lemma headers_missing :
  BEARER e = None \/ BEARER e = Some [] ->
  headers e = Raise (RuntimeError MISSING_TOKEN).
Proof. unfold headers. by intros [-> | ->]. Qed.

Lemma headers_raises (ex : exn) :
  headers e = Raise ex -> ex = RuntimeError MISSING_TOKEN.
Proof.
  unfold headers. destruct (BEARER e) as [[|c b]|]; congruence.
Qed.

(** Without a token neither function reaches the network. *)
Lemma get_user_id_unsent (ex : exn) (username : pystr) (w : world) :
  headers e = Raise ex -> get_user_id e username w = (Raise ex, w).
Proof. intros Hh. unfold get_user_id. py_unfold. by rewrite Hh. Qed.

Lemma fetch_unsent (ex : exn) (user_id since_id : json) (w : world) :
  headers e = Raise ex -> fetch_new_tweets e user_id since_id w = (Raise ex, w).
Proof. intros Hh. unfold fetch_new_tweets. py_unfold. by rewrite Hh. Qed.

(** With a token each function sends exactly one request. *)
Lemma get_user_id_sent (h : list (pystr * pystr)) (username : pystr) (w : world) :
  headers e = Ok h ->
  snd (get_user_id e username w) = emit (NetGet (user_request username h)) w.
Proof.
  intros Hh. unfold get_user_id. py_unfold. rewrite Hh.
  by destruct (network e _).
Qed.

Lemma fetch_sent (h : list (pystr * pystr)) (user_id since_id : json) (w : world) :
  headers e = Ok h ->
  snd (fetch_new_tweets e user_id since_id w)
  = emit (NetGet (tweets_request user_id since_id h)) w.
Proof.
  intros Hh. unfold fetch_new_tweets. py_unfold. rewrite Hh.
  destruct (network e _) as [r|]; [|done].
  by destruct (status_code r =? 403).
Qed.

(** What [fetch_new_tweets] makes of a response. *)
Lemma fetch_response (h : list (pystr * pystr)) (r : response)
    (user_id since_id : json) (w : world) :
  headers e = Ok h ->
  network e (tweets_request user_id since_id h) = Ok r ->
  fst (fetch_new_tweets e user_id since_id w)
  = if status_code r =? 403 then Raise (RuntimeError FORBIDDEN_HINT)
    else
      _ <~ raise_for_status r ;;
      data <~ response_json r ;;
      tweets <~ py_get data (str "data") (JArr []) ;;
      match tweets with
      | JArr l => sort_by_id l
      | _ => Raise (AttributeError (str "sort"))
      end.
Proof.
  intros Hh Hr. unfold fetch_new_tweets. py_unfold. rewrite Hh, Hr.
  by destruct (status_code r =? 403).
Qed.

(** Neither function changes a file. *)
Lemma get_user_id_files (username : pystr) (w : world) :
  files (snd (get_user_id e username w)) = files w.
Proof.
  destruct (headers e) as [h|ex] eqn:Hh.
  - by rewrite (get_user_id_sent h).
  - by rewrite (get_user_id_unsent ex).
Qed.

Lemma fetch_files (user_id since_id : json) (w : world) :
  files (snd (fetch_new_tweets e user_id since_id w)) = files w.
Proof.
  destruct (headers e) as [h|ex] eqn:Hh.
  - by rewrite (fetch_sent h).
  - by rewrite (fetch_unsent ex).
Qed.

End Requests.

(** ** C8: the failures of the fetch *)

(** C8, as stated, fails: 304 is not a success status and is not 403, yet
    a response with that status is no failure for [fetch_new_tweets]: the
    body is read, the post is returned, and the run goes on to return 0 with
    the watermark advanced to the post. *)
Lemma not_modified_is_not_an_error :
  spec_success_status 304 = false
  /\ 304 <> 403
  /\ network MoreExamples.not_modified_run
       (tweets_request (RT := Examples.runtime) (JStr (str "42")) JNull
          Examples.bearer_header)
     = Ok {| status_code := 304;
             body := Some (Examples.page [Examples.tweet "10" (str "gm")]) |}
  /\ fst (fetch_new_tweets (RT := Examples.runtime) MoreExamples.not_modified_run
            (JStr (str "42")) JNull Examples.empty_world)
     = Ok [Examples.tweet "10" (str "gm")]
  /\ fst (main (RT := Examples.runtime) MoreExamples.not_modified_run
            Examples.empty_world)
     = Ok 0
  /\ stored_since_id
       (handle_key (RT := Examples.runtime) MoreExamples.not_modified_run)
       (snd (main (RT := Examples.runtime) MoreExamples.not_modified_run
               Examples.empty_world))
     = Some (JStr (str "10")).
Proof. repeat split; (done || by vm_compute). Qed.

(** C8, amended: [fetch_new_tweets] (1) raises [RuntimeError] with the
    message of the missing token, without touching the world and so before
    any request, when the bearer token is absent or empty; and, when a token
    is present and the API answers the request with a response, (2) raises
    [RuntimeError] with the hint about the API tier exactly when the status
    is 403, (3) raises [HTTPError], with the status of the response, exactly
    when the status is another one from 400 to 599, and (4) at a status
    outside 400 to 599 (a success, but also 1xx, 3xx and 600 and above) reads
    the body as that of a success, (5) having sent that one request. *)
Theorem fetch_raises_by_status `{RT : PyRuntime} (e : env) (user_id since_id : json)
    (w : world) :
  (BEARER e = None \/ BEARER e = Some [] ->
   fetch_new_tweets e user_id since_id w
   = (Raise (RuntimeError (str "Missing X_BEARER_TOKEN in environment.")), w))
  /\
  (forall h r,
     headers e = Ok h ->
     network e (tweets_request user_id since_id h) = Ok r ->
     (fst (fetch_new_tweets e user_id since_id w)
      = Raise (RuntimeError
                 (str "403 Forbidden. Your API tier might not allow this endpoint or parameters."))
      <-> status_code r = 403)
     /\ (forall s,
           fst (fetch_new_tweets e user_id since_id w) = Raise (HTTPError s)
           <-> s = status_code r /\ 400 <= s < 600 /\ s <> 403)
     /\ (~ 400 <= status_code r < 600 ->
         fst (fetch_new_tweets e user_id since_id w)
         = (data <~ response_json r ;;
            tweets <~ py_get data (str "data") (JArr []) ;;
            match tweets with
            | JArr l => sort_by_id l
            | _ => Raise (AttributeError (str "sort"))
            end))
     /\ new_events (fetch_new_tweets e user_id since_id) w
        = [NetGet (tweets_request user_id since_id h)]).
Proof.
  split.
  - intros Hb. apply fetch_unsent. by apply headers_missing.
  - intros h r Hh Hr. rewrite (fetch_response e h r) by done.
    assert (Hbody : forall ex,
              (data <~ response_json r ;;
               tweets <~ py_get data (str "data") (JArr []) ;;
               match tweets with
               | JArr l => sort_by_id l
               | _ => Raise (AttributeError (str "sort"))
               end) = Raise ex ->
              (forall m, ex <> RuntimeError m) /\ (forall s, ex <> HTTPError s)).
    { intros ex. unfold response_json, py_get, rbind.
      destruct (body r) as [[| | | | |d]|]; try (by intros [= <-]).
      destruct (dict_get _ d) as [[| | | |l|]|]; try (by intros [= <-]).
      all: intros Hs; apply sort_by_id_exn in Hs as [-> | ->]; done. }
    assert (Herr : is_error_status (status_code r) = true
                   <-> 400 <= status_code r < 600).
    { unfold is_error_status. rewrite andb_true_iff, Z.leb_le, Z.ltb_lt. done. }
    split; [|split; [|split]].
    + destruct (Z.eqb_spec (status_code r) 403) as [|Hne]; [done|].
      split; [|done]. unfold raise_for_status.
      destruct (is_error_status _); [done|].
      cbn [rbind]. intros Hs. destruct (proj1 (Hbody _ Hs) _ eq_refl).
    + intros s.
      destruct (Z.eqb_spec (status_code r) 403) as [H403|Hne].
      { split; [done|]. intros (-> & _ & Hs). done. }
      unfold raise_for_status.
      destruct (is_error_status (status_code r)).
      * pose proof (proj1 Herr eq_refl) as Hrange. cbn [rbind]. split.
        -- intros [= <-]. done.
        -- by intros (-> & _ & _).
      * cbn [rbind]. split.
        -- intros Hs. destruct (proj2 (Hbody _ Hs) s eq_refl).
        -- intros (-> & Hrange & _). by apply Herr in Hrange.
    + intros Hrange.
      destruct (Z.eqb_spec (status_code r) 403) as [H403|Hne]; [lia|].
      unfold raise_for_status.
      destruct (is_error_status (status_code r)); [|done].
      destruct Hrange. by apply Herr.
    + unfold new_events. rewrite (fetch_sent e h) by done. simpl.
      by rewrite drop_app_length.
Qed.

(** The failures at concrete inputs: no token; a token and the status 403;
    a token and the status 404. *)
Lemma fetch_raises_by_status_witness :
  fetch_new_tweets (RT := Examples.runtime)
    (Examples.env_of None (Examples.status_api 200))
    (JStr (str "42")) JNull Examples.empty_world
  = (Raise (RuntimeError (str "Missing X_BEARER_TOKEN in environment.")),
     Examples.empty_world)
  /\ (fst (fetch_new_tweets (RT := Examples.runtime)
             (Examples.env_of (Some (str "token")) (Examples.status_api 403))
             (JStr (str "42")) JNull Examples.empty_world)
      = Raise (RuntimeError
                 (str "403 Forbidden. Your API tier might not allow this endpoint or parameters."))
      <-> 403 = 403)
  /\ fst (fetch_new_tweets (RT := Examples.runtime)
            (Examples.env_of (Some (str "token")) (Examples.status_api 404))
            (JStr (str "42")) JNull Examples.empty_world)
     = Raise (HTTPError 404).
Proof.
  split; [|split].
  - apply (proj1 (fetch_raises_by_status _ _ _ _)). by left.
  - apply (proj2 (fetch_raises_by_status (RT := Examples.runtime)
                    (Examples.env_of (Some (str "token")) (Examples.status_api 403))
                    (JStr (str "42")) JNull Examples.empty_world)
             Examples.bearer_header
             {| status_code := 403; body := None |});
      reflexivity.
  - apply (proj1 (proj2 (proj2 (fetch_raises_by_status (RT := Examples.runtime)
                    (Examples.env_of (Some (str "token")) (Examples.status_api 404))
                    (JStr (str "42")) JNull Examples.empty_world)
             Examples.bearer_header
             {| status_code := 404; body := None |} eq_refl eq_refl))).
    split; [reflexivity | lia].
Defined.

(** ** The run, phase by phase *)

Section Run.
Context `{RT : PyRuntime}.
Variable e : env.

Lemma new_events_app {A : Type} (m : Py A) (w : world) (evs : list event) :
  log (snd (m w)) = log w ++ evs -> new_events m w = evs.
Proof. unfold new_events. intros ->. by rewrite drop_app_length. Qed.

(** [load_state] in closed form. *)
Lemma load_state_eq (w : world) :
  load_state w
  = (match files w !! STATE_FILE with
     | None => Ok (JObj [])
     | Some (Json v) => Ok v
     | Some (Text _) => Raise JSONDecodeError
     end, after_load w).
Proof.
  unfold load_state, after_load, load_events, emit. py_unfold. simpl.
  destruct (files w !! STATE_FILE) as [c|] eqn:Hf; simpl.
  - rewrite Hf. destruct c; unfold emit; simpl; by rewrite <- app_assoc.
  - done.
Qed.

Lemma load_state_persisted (w : world) (state : json) :
  persisted w = Some state -> load_state w = (Ok state, after_load w).
Proof.
  rewrite load_state_eq. unfold persisted.
  destruct (files w !! STATE_FILE) as [[v|s]|]; congruence.
Qed.

(** [main] from the loaded state on. *)
Lemma main_loaded (w : world) (state last_id : json) :
  loads e w state last_id ->
  main e w
  = (resolved <- try (get_user_id e (HANDLE e)) ;;
     match resolved with
     | Raise ex =>
         print (str "[ERROR] Failed to resolve user id for @" ++ HANDLE e
                ++ str ": " ++ exn_str ex) ;;;
         ret 1
     | Ok user_id =>
         fetched <- try (fetch_new_tweets e user_id last_id) ;;
         match fetched with
         | Raise ex =>
             print (str "[ERROR] Failed to fetch tweets: " ++ exn_str ex) ;;;
             ret 1
         | Ok [] => print NO_NEW_POSTS ;;; ret 0
         | Ok new_tweets => report e state (handle_key e) new_tweets
         end
     end) (after_load w).
Proof.
  intros (rec & Hp & Hrec & Hlast). unfold main at 1. unfold bind at 1.
  rewrite (load_state_persisted w state Hp).
  unfold bind at 1, lift at 1. fold (handle_key e). rewrite Hrec.
  unfold bind at 1, lift at 1. by rewrite Hlast.
Qed.

(** When the state cannot be loaded or read, [main] stops there. *)
Lemma main_load_raises (w : world) (s : pystr) :
  files w !! STATE_FILE = Some (Text s) ->
  main e w = (Raise JSONDecodeError, after_load w).
Proof.
  intros Hf. unfold main, bind at 1. rewrite load_state_eq. by rewrite Hf.
Qed.

End Run.

(** ** C4: a corrupt state file *)

(** C4, as stated, fails: with a state file that is not JSON the run ends in
    an uncaught [JSONDecodeError] (exit status 1), while the same run without
    a state file reports the new posts and returns 0. *)
Lemma corrupt_state_is_fatal :
  let e := Examples.env_of (Some (str "token"))
             (Examples.api (Examples.page [Examples.tweet "10" (str "gm")])
                           (Examples.page [])) in
  fst (main (RT := Examples.runtime) e (Examples.world_with (Text (str "{"))))
    = Raise JSONDecodeError
  /\ exit_status (fst (main (RT := Examples.runtime) e
                         (Examples.world_with (Text (str "{"))))) = 1
  /\ fst (main (RT := Examples.runtime) e Examples.empty_world) = Ok 0.
Proof. vm_compute. done. Qed.

(** C4, amended: only a missing state file is treated as the empty mapping.
    When the file exists and its text is not JSON, [load_state] raises the
    decode error, [main] does not catch it, and the run ends with exit
    status 1 having only looked at and read the state file: nothing is
    printed, no request is sent, no file is changed. *)
Theorem corrupt_state_raises `{RT : PyRuntime} (e : env) (w : world) (s : pystr) :
  files w !! STATE_FILE = Some (Text s) ->
  main e w = (Raise JSONDecodeError, after_load w)
  /\ exit_status (fst (main e w)) = 1
  /\ new_events (main e) w = [FsExists STATE_FILE; FsRead STATE_FILE]
  /\ files (snd (main e w)) = files w.
Proof.
  intros Hf. unfold new_events. rewrite (main_load_raises e w s Hf).
  repeat split. simpl. rewrite drop_app_length.
  unfold load_events. by rewrite Hf.
Qed.

Lemma corrupt_state_raises_witness :
  main (RT := Examples.runtime)
    (Examples.env_of (Some (str "token")) (Examples.status_api 200))
    (Examples.world_with (Text (str "{")))
  = (Raise JSONDecodeError, after_load (Examples.world_with (Text (str "{")))).
Proof.
  apply (corrupt_state_raises (RT := Examples.runtime) _ _ (str "{")).
  reflexivity.
Defined.

(** ** C7: a missing bearer token *)

(** C7, as stated, fails: the run without a token looks for the state file
    before it finds the token missing, so it does not stop before any I/O. *)
Lemma missing_token_not_before_io :
  BEARER (Examples.env_of None (Examples.status_api 200)) = None
  /\ ~ fails_before_io
        (main (RT := Examples.runtime)
           (Examples.env_of None (Examples.status_api 200)))
        Examples.empty_world.
Proof.
  split; [reflexivity|].
  intros (_ & _ & Hio). vm_compute in Hio.
  apply Forall_cons_1 in Hio as [Hio _]. discriminate.
Qed.

(** C7, amended: when the bearer token is absent or empty and the state
    loads, the run finds the token missing after it has looked at (and, when
    it exists, read) the state file and before any request: it prints the
    diagnostic naming the missing token, returns 1, sends no request and
    changes no file. *)
Theorem missing_token_stops_run `{RT : PyRuntime} (e : env) (w : world)
    (state last_id : json) :
  BEARER e = None \/ BEARER e = Some [] ->
  loads e w state last_id ->
  main e w = (Ok 1, emit (Print (missing_token_diagnostic e)) (after_load w))
  /\ exit_status (fst (main e w)) = 1
  /\ new_events (main e) w
     = load_events w ++ [Print (missing_token_diagnostic e)]
  /\ List.filter is_net_event (new_events (main e) w) = []
  /\ files (snd (main e w)) = files w.
Proof.
  intros Hb Hl. apply headers_missing in Hb.
  assert (Hm : main e w
               = (Ok 1, emit (Print (missing_token_diagnostic e)) (after_load w))).
  { rewrite (main_loaded e w state last_id Hl). unfold bind at 1, try at 1.
    by rewrite (get_user_id_unsent e _ _ _ Hb). }
  assert (Hev : new_events (main e) w
                = load_events w ++ [Print (missing_token_diagnostic e)]).
  { apply new_events_app. rewrite Hm. simpl. by rewrite app_assoc. }
  rewrite Hev, Hm. repeat split.
  rewrite List.filter_app. unfold load_events.
  by destruct (files w !! STATE_FILE).
Qed.

Lemma missing_token_stops_run_witness :
  main (RT := Examples.runtime)
    (Examples.env_of None (Examples.status_api 200)) Examples.empty_world
  = (Ok 1,
     emit (Print (missing_token_diagnostic
                    (Examples.env_of None (Examples.status_api 200))))
       (after_load Examples.empty_world)).
Proof.
  apply (missing_token_stops_run (RT := Examples.runtime) _ _ (JObj []) JNull).
  - by left.
  - exists (JObj []). by vm_compute.
Defined.

(** ** C6 and C10: the run without new posts *)

Section NoNewPosts.
Context `{RT : PyRuntime}.
Variable e : env.

(** The run from a fetch that returned the empty list. *)
Lemma main_no_new_posts (w w2 w3 : world) (state last_id user_id : json) :
  loads e w state last_id ->
  get_user_id e (HANDLE e) (after_load w) = (Ok user_id, w2) ->
  fetch_new_tweets e user_id last_id w2 = (Ok [], w3) ->
  main e w = (Ok 0, emit (Print NO_NEW_POSTS) w3).
Proof.
  intros Hl Hu Hf. rewrite (main_loaded e w state last_id Hl).
  unfold bind at 1, try at 1. rewrite Hu.
  unfold bind at 1, try at 1. by rewrite Hf.
Qed.

Lemma get_user_id_ok_headers (w w2 : world) (username : pystr) (user_id : json) :
  get_user_id e username w = (Ok user_id, w2) -> exists h, headers e = Ok h.
Proof.
  destruct (headers e) as [h|ex] eqn:Hh; [by exists h|].
  by rewrite (get_user_id_unsent e ex).
Qed.

(** The effects of such a run. *)
Lemma run_without_new_posts (w w2 w3 : world)
    (state last_id user_id : json) :
  loads e w state last_id ->
  get_user_id e (HANDLE e) (after_load w) = (Ok user_id, w2) ->
  fetch_new_tweets e user_id last_id w2 = (Ok [], w3) ->
  fst (main e w) = Ok 0
  /\ exit_status (fst (main e w)) = 0
  /\ (exists h,
        new_events (main e) w
        = load_events w
          ++ [NetGet (user_request (HANDLE e) h);
              NetGet (tweets_request user_id last_id h);
              Print NO_NEW_POSTS])
  /\ List.filter is_write_event (new_events (main e) w) = []
  /\ files (snd (main e w)) = files w.
Proof.
  intros Hl Hu Hf.
  pose proof (main_no_new_posts w w2 w3 state last_id user_id Hl Hu Hf) as Hm.
  destruct (get_user_id_ok_headers _ _ _ _ Hu) as [h Hh].
  pose proof (get_user_id_sent e h (HANDLE e) (after_load w) Hh) as Hw2.
  pose proof (fetch_sent e h user_id last_id w2 Hh) as Hw3.
  rewrite Hu in Hw2. rewrite Hf in Hw3. simpl in Hw2, Hw3. subst w2 w3.
  assert (Hev : new_events (main e) w
                = load_events w
                  ++ [NetGet (user_request (HANDLE e) h);
                      NetGet (tweets_request user_id last_id h);
                      Print NO_NEW_POSTS]).
  { apply new_events_app. rewrite Hm. simpl. by rewrite <- !app_assoc. }
  rewrite Hev, Hm. repeat split.
  - by exists h.
  - rewrite List.filter_app. unfold load_events.
    by destruct (files w !! STATE_FILE).
Qed.

End NoNewPosts.

(** C6: in a run whose fetch returns the empty list, [main] prints the
    no-new-posts message and returns 0; apart from looking at and reading
    the state file and sending its two requests it has no effect: no file is
    written, opened or appended to, and the files, the state file among
    them, are what they were. *)
Theorem empty_fetch_is_noop `{RT : PyRuntime} (e : env) (w w2 w3 : world)
    (state last_id user_id : json) :
  loads e w state last_id ->
  get_user_id e (HANDLE e) (after_load w) = (Ok user_id, w2) ->
  fetch_new_tweets e user_id last_id w2 = (Ok [], w3) ->
  fst (main e w) = Ok 0
  /\ exit_status (fst (main e w)) = 0
  /\ (exists h,
        new_events (main e) w
        = load_events w
          ++ [NetGet (user_request (HANDLE e) h);
              NetGet (tweets_request user_id last_id h);
              Print NO_NEW_POSTS])
  /\ List.filter is_write_event (new_events (main e) w) = []
  /\ files (snd (main e w)) = files w.
Proof. apply run_without_new_posts. Qed.

Lemma empty_fetch_is_noop_witness :
  let e := Examples.env_of (Some (str "token"))
             (Examples.api (Examples.page []) (Examples.page [])) in
  fst (main (RT := Examples.runtime) e Examples.empty_world) = Ok 0
  /\ files (snd (main (RT := Examples.runtime) e Examples.empty_world))
     = files Examples.empty_world.
Proof.
  pose (e := Examples.env_of (Some (str "token"))
               (Examples.api (Examples.page []) (Examples.page []))).
  pose (w2 := snd (get_user_id e (HANDLE e)
                     (after_load Examples.empty_world))).
  pose (w3 := snd (fetch_new_tweets (RT := Examples.runtime) e
                     (JStr (str "42")) JNull w2)).
  destruct (empty_fetch_is_noop (RT := Examples.runtime) e Examples.empty_world
              w2 w3 (JObj []) JNull (JStr (str "42")))
    as (Hr & _ & _ & _ & Hf).
  - exists (JObj []). by vm_compute.
  - reflexivity.
  - reflexivity.
  - split; [exact Hr | exact Hf].
Defined.

(** C10: when the state loads, the user lookup succeeds and the API answers
    the timeline request with a success status (2xx) and a JSON object
    without the key [data], [fetch_new_tweets] returns the empty list, having
    sent its request, and the run takes the no-new-posts path: it prints the
    message, returns 0, writes no file and leaves the files as they were. *)
Theorem missing_data_key_is_empty `{RT : PyRuntime} (e : env) (w w2 : world)
    (state last_id user_id : json) (h : list (pystr * pystr)) (r : response)
    (d : dict) :
  loads e w state last_id ->
  get_user_id e (HANDLE e) (after_load w) = (Ok user_id, w2) ->
  headers e = Ok h ->
  network e (tweets_request user_id last_id h) = Ok r ->
  200 <= status_code r < 300 ->
  body r = Some (JObj d) ->
  dict_get (str "data") d = None ->
  fetch_new_tweets e user_id last_id w2
  = (Ok [], emit (NetGet (tweets_request user_id last_id h)) w2)
  /\ fst (main e w) = Ok 0
  /\ exit_status (fst (main e w)) = 0
  /\ In (Print NO_NEW_POSTS) (new_events (main e) w)
  /\ List.filter is_write_event (new_events (main e) w) = []
  /\ files (snd (main e w)) = files w.
Proof.
  intros Hl Hu Hh Hr Hs Hb Hd.
  assert (Hf : fetch_new_tweets e user_id last_id w2
               = (Ok [], emit (NetGet (tweets_request user_id last_id h)) w2)).
  { rewrite (surjective_pairing (fetch_new_tweets e user_id last_id w2)).
    rewrite (fetch_sent e h) by done.
    rewrite (fetch_response e h r) by done.
    destruct (Z.eqb_spec (status_code r) 403); [lia|].
    unfold raise_for_status, is_error_status, response_json, py_get, rbind.
    destruct (Z.leb_spec 400 (status_code r)); [lia|]. simpl.
    by rewrite Hb, Hd. }
  split; [exact Hf|].
  destruct (run_without_new_posts e w w2 _ state last_id user_id Hl Hu Hf)
    as (H0 & Hx & (h' & Hev) & Hwr & Hfiles).
  repeat split; try done.
  rewrite Hev. apply in_or_app. right. simpl. auto.
Qed.

Lemma missing_data_key_is_empty_witness :
  let e := Examples.env_of (Some (str "token"))
             (Examples.api (JObj [(str "meta", JObj [(str "result_count", JInt 0)])])
                           (Examples.page [])) in
  fst (main (RT := Examples.runtime) e Examples.empty_world) = Ok 0
  /\ files (snd (main (RT := Examples.runtime) e Examples.empty_world))
     = files Examples.empty_world.
Proof.
  pose (e := Examples.env_of (Some (str "token"))
               (Examples.api (JObj [(str "meta", JObj [(str "result_count", JInt 0)])])
                             (Examples.page []))).
  pose (w2 := snd (get_user_id e (HANDLE e)
                     (after_load Examples.empty_world))).
  destruct (missing_data_key_is_empty (RT := Examples.runtime) e
              Examples.empty_world w2 (JObj []) JNull (JStr (str "42"))
              [(str "Authorization", str "Bearer token")]
              {| status_code := 200;
                 body := Some (JObj [(str "meta", JObj [(str "result_count", JInt 0)])]) |}
              [(str "meta", JObj [(str "result_count", JInt 0)])])
    as (_ & Hr & _ & _ & _ & Hf).
  - exists (JObj []). by vm_compute.
  - reflexivity.
  - reflexivity.
  - reflexivity.
  - simpl. lia.
  - reflexivity.
  - reflexivity.
  - split; [exact Hr | exact Hf].
Defined.

(** ** What a run does to the state file *)

Section StateFile.
Context `{RT : PyRuntime}.
Variable e : env.

Lemma keeps_ret {A : Type} (a : A) : keeps_state_file (ret a).
Proof. by intros w. Qed.

Lemma keeps_lift {A : Type} (r : result A) : keeps_state_file (lift r).
Proof. by intros w. Qed.

Lemma keeps_print (line : pystr) : keeps_state_file (print line).
Proof. by intros w. Qed.

Lemma keeps_bind {A B : Type} (m : Py A) (k : A -> Py B) :
  keeps_state_file m -> (forall a, keeps_state_file (k a)) ->
  keeps_state_file (bind m k).
Proof.
  intros Hm Hk w. unfold bind. specialize (Hm w).
  destruct (m w) as [[a|ex] w']; simpl in *; [|done].
  by rewrite Hk.
Qed.

Lemma keeps_for_each {A : Type} (l : list A) (f : A -> Py unit) :
  (forall x, keeps_state_file (f x)) -> keeps_state_file (for_each l f).
Proof.
  intros Hf. induction l as [|x l IH]; simpl.
  - apply keeps_ret.
  - apply keeps_bind; [apply Hf | intros _; apply IH].
Qed.

Lemma keeps_fs_open (p : pystr) :
  p <> STATE_FILE -> keeps_state_file (fs_open e p).
Proof.
  intros Hp w. unfold fs_open. destruct (open_error e p); [done|].
  simpl. by rewrite lookup_insert_ne.
Qed.

Lemma keeps_fs_append (p s : pystr) :
  p <> STATE_FILE -> keeps_state_file (fs_append e p s).
Proof.
  intros Hp w. unfold fs_append. destruct (write_error e p s); [done|].
  simpl. by rewrite lookup_insert_ne.
Qed.

(** The report file is never the state file. *)
Lemma report_name_not_state_file : report_name e <> STATE_FILE.
Proof. unfold report_name, STATE_FILE. simpl. discriminate. Qed.

Lemma render_keeps_state_file (new_tweets : list json) :
  keeps_state_file (render e new_tweets).
Proof.
  pose proof report_name_not_state_file as Hne. unfold render.
  repeat (first
    [ apply keeps_ret | apply keeps_print | apply keeps_lift
    | apply keeps_fs_open; exact Hne | apply keeps_fs_append; exact Hne
    | apply keeps_for_each; intros ?
    | apply keeps_bind; [|intros ?] ]).
Qed.

(** [report] saves the state with the identifier of the last post, when that
    post has one; nothing it does afterwards touches the state file. *)
Lemma report_state_file (state : json) (hk : pystr) (new_tweets : list json)
    (w : world) :
  files (snd (report e state hk new_tweets w)) !! STATE_FILE
  = match (newest_id <~ py_item (List.last new_tweets JNull) (str "id") ;;
           set_since_id state hk newest_id) with
    | Ok state' => Some (Json state')
    | Raise _ => files w !! STATE_FILE
    end.
Proof.
  unfold report. unfold bind at 1, lift at 1, rbind at 1.
  destruct (py_item _ _) as [newest_id|ex]; [|done].
  unfold bind at 1, lift at 1.
  destruct (set_since_id _ _ _) as [state'|ex]; [|done].
  unfold bind at 1, save_state at 1, fs_write_text at 1.
  rewrite render_keeps_state_file. simpl. by rewrite lookup_insert_eq.
Qed.

(** Every run either leaves all files as they were, or has loaded the
    state, fetched a non-empty list and saved the state with the identifier
    of its last post. *)
Lemma main_state_file (w : world) :
  files (snd (main e w)) = files w
  \/ exists state last_id user_id w2 w3 t ts newest_id state',
       loads e w state last_id
       /\ get_user_id e (HANDLE e) (after_load w) = (Ok user_id, w2)
       /\ fetch_new_tweets e user_id last_id w2 = (Ok (t :: ts), w3)
       /\ py_item (List.last (t :: ts) JNull) (str "id") = Ok newest_id
       /\ set_since_id state (handle_key e) newest_id = Ok state'
       /\ files (snd (main e w)) !! STATE_FILE = Some (Json state').
Proof.
  destruct (persisted w) as [state|] eqn:Hp.
  2:{ left. unfold persisted in Hp.
      destruct (files w !! STATE_FILE) as [[v|s]|] eqn:Hf; try done.
      by rewrite (main_load_raises e w s Hf). }
  destruct (py_get state (handle_key e) (JObj [])) as [rec|ex] eqn:Hrec.
  2:{ left. unfold main, bind at 1. rewrite (load_state_persisted w state Hp).
      unfold bind at 1, lift at 1. fold (handle_key e). by rewrite Hrec. }
  destruct (py_get rec (str "since_id") JNull) as [last_id|ex] eqn:Hlast.
  2:{ left. unfold main, bind at 1. rewrite (load_state_persisted w state Hp).
      unfold bind at 1, lift at 1. fold (handle_key e). rewrite Hrec.
      unfold bind at 1, lift at 1. by rewrite Hlast. }
  assert (Hl : loads e w state last_id) by (by exists rec).
  rewrite (main_loaded e w state last_id Hl).
  pose proof (get_user_id_files e (HANDLE e) (after_load w)) as Hf2.
  destruct (get_user_id e (HANDLE e) (after_load w)) as [[user_id|ex] w2] eqn:Hu;
    simpl in Hf2; rewrite (bind_ok _ _ _ _ _ (try_eq _ _ _ _ Hu)).
  2:{ by left. }
  pose proof (fetch_files e user_id last_id w2) as Hf3.
  destruct (fetch_new_tweets e user_id last_id w2) as [[[|t ts]|ex] w3] eqn:Hf;
    simpl in Hf3; rewrite (bind_ok _ _ _ _ _ (try_eq _ _ _ _ Hf)).
  1,3:(left; simpl; congruence).
  pose proof (report_state_file state (handle_key e) (t :: ts) w3) as Hrep.
  unfold rbind in Hrep.
  destruct (py_item (List.last (t :: ts) JNull) (str "id")) as [newest_id|ex] eqn:Hn.
  2:{ left. unfold report, bind at 1, lift at 1. rewrite Hn. simpl. congruence. }
  destruct (set_since_id state (handle_key e) newest_id) as [state'|ex] eqn:Hs.
  2:{ left. unfold report, bind at 1, lift at 1. rewrite Hn.
      unfold bind at 1, lift at 1. rewrite Hs. simpl. congruence. }
  right. exists state, last_id, user_id, w2, w3, t, ts, newest_id, state'.
  by repeat split.
Qed.

End StateFile.

(** ** The sort *)

Lemma insert_by_key_perm (k : pystr) (t : json) (l : list (pystr * json)) :
  Permutation (insert_by_key k t l) ((k, t) :: l).
Proof.
  induction l as [|[k' t'] l IH]; simpl; [done|].
  destruct (str_ltb k' k); [|done].
  rewrite IH. apply perm_swap.
Qed.

Lemma stable_sort_perm (l : list (pystr * json)) : Permutation (stable_sort l) l.
Proof.
  induction l as [|[k t] l IH]; simpl; [done|].
  by rewrite insert_by_key_perm, IH.
Qed.

(** The sort leaves a list whose keys never go down in the order [<] of
    strings. *)
Lemma str_ltb_asym (a b : pystr) : str_ltb a b = true -> str_ltb b a = false.
Proof.
  revert b. induction a as [|x a IH]; intros [|y b]; simpl; try done.
  destruct (N.ltb_spec x y), (N.ltb_spec y x); try done; try lia.
  apply IH.
Qed.

Lemma insert_by_key_sorted (k : pystr) (t : json) (l : list (pystr * json)) :
  Sorted key_le l -> Sorted key_le (insert_by_key k t l).
Proof.
  induction l as [|[k' t'] l IH]; simpl; intros Hs.
  - by repeat constructor.
  - apply Sorted_inv in Hs as [Hs Hhd].
    destruct (str_ltb k' k) eqn:Hlt.
    + constructor; [by apply IH|].
      destruct l as [|[k2 t2] l]; simpl.
      * constructor. unfold key_le. simpl. by apply str_ltb_asym.
      * destruct (str_ltb k2 k) eqn:Hlt2; constructor.
        -- by apply HdRel_inv in Hhd.
        -- unfold key_le. simpl. by apply str_ltb_asym.
    + constructor; [by constructor|]. by constructor.
Qed.

Lemma stable_sort_sorted (l : list (pystr * json)) : Sorted key_le (stable_sort l).
Proof.
  induction l as [|[k t] l IH]; simpl; [constructor|].
  by apply insert_by_key_sorted.
Qed.

Section SortById.
Context `{RT : PyRuntime}.

Lemma py_item_tweet_id (t k : json) :
  py_item t (str "id") = Ok k -> tweet_id t = Some k.
Proof.
  unfold py_item, tweet_id. destruct t; try done.
  destruct (dict_get _ _); congruence.
Qed.

Lemma id_keys_ok (l : list json) (keyed : list (json * json)) :
  id_keys l = Ok keyed ->
  List.map snd keyed = l
  /\ Forall (fun kt => tweet_id (snd kt) = Some (fst kt)) keyed.
Proof.
  revert keyed. induction l as [|t l IH]; simpl; intros keyed.
  - intros [= <-]. by split.
  - unfold rbind. destruct (py_item t (str "id")) as [k|] eqn:Hk; [|done].
    destruct (id_keys l) as [kr|]; [|done]. intros [= <-].
    destruct (IH kr eq_refl) as [Hm Hf]. simpl. split.
    + by rewrite Hm.
    + constructor; [by apply py_item_tweet_id | done].
Qed.

Lemma str_keys_snd (keyed : list (json * json)) (sk : list (pystr * json)) :
  str_keys keyed = Some sk -> List.map snd sk = List.map snd keyed.
Proof.
  revert sk. induction keyed as [|[k t] keyed IH]; simpl; intros sk.
  - by intros [= <-].
  - destruct k; try done. destruct (str_keys keyed) as [sr|]; [|done].
    intros [= <-]. simpl. by rewrite (IH sr).
Qed.

Lemma str_keys_total (keyed : list (json * json)) :
  Forall (fun kt => exists s, fst kt = JStr s) keyed ->
  exists sk, str_keys keyed = Some sk.
Proof.
  induction 1 as [|[k t] keyed [s Hs] _ [sr IH]]; simpl.
  - by exists [].
  - simpl in Hs. subst k. rewrite IH. by eexists.
Qed.

(** With string identifiers throughout, [sort_by_id] returns a permutation
    of the posts. *)
Lemma sort_by_id_perm (l sorted : list json) :
  Forall (fun t => exists s, tweet_id t = Some (JStr s)) l ->
  sort_by_id l = Ok sorted ->
  Permutation sorted l.
Proof.
  intros Hstr. unfold sort_by_id, rbind.
  destruct (id_keys l) as [keyed|] eqn:Hk; [|done].
  destruct (id_keys_ok l keyed Hk) as [Hsnd Hid].
  destruct (str_keys_total keyed) as [sk Hsk].
  { apply List.Forall_forall. intros [k t] Hin.
    rewrite List.Forall_forall in Hstr, Hid.
    specialize (Hid _ Hin). simpl in Hid.
    destruct (Hstr t) as [s Hs].
    - rewrite <- Hsnd. by apply (in_map snd) in Hin.
    - exists s. simpl. congruence. }
  rewrite Hsk. intros [= <-].
  rewrite stable_sort_perm. by rewrite (str_keys_snd keyed sk Hsk), Hsnd.
Qed.

End SortById.

Section FetchOk.
Context `{RT : PyRuntime}.
Variable e : env.

(** A successful fetch: the response it was made from. *)
Lemma fetch_ok_inv (user_id since_id : json) (w w' : world) (tweets : list json) :
  fetch_new_tweets e user_id since_id w = (Ok tweets, w') ->
  exists h r d l,
    headers e = Ok h
    /\ network e (tweets_request user_id since_id h) = Ok r
    /\ body r = Some (JObj d)
    /\ (dict_get (str "data") d = Some (JArr l)
        \/ dict_get (str "data") d = None /\ l = [])
    /\ sort_by_id l = Ok tweets.
Proof.
  intros Hf. destruct (headers e) as [h|ex] eqn:Hh.
  2:{ by rewrite (fetch_unsent e ex) in Hf. }
  destruct (network e (tweets_request user_id since_id h)) as [r|ex] eqn:Hr.
  2:{ unfold fetch_new_tweets in Hf. py_unfold. by rewrite Hh, Hr in Hf. }
  pose proof (fetch_response e h r user_id since_id w Hh Hr) as Hres.
  rewrite Hf in Hres. simpl in Hres.
  destruct (status_code r =? 403); [done|].
  unfold raise_for_status, response_json, py_get, rbind in Hres.
  destruct (is_error_status _); [done|].
  destruct (body r) as [[| | | | |d]|] eqn:Hb; try done.
  exists h, r, d.
  destruct (dict_get (str "data") d) as [[| | | |l|]|] eqn:Hd; try done.
  - exists l. repeat split; auto.
  - exists []. repeat split; auto.
Qed.

End FetchOk.

(** ** What a run makes of the world it starts in *)

Section Blind.
Context `{RT : PyRuntime}.
Variable e : env.

Lemma blind_ret {A : Type} (a : A) : blind (ret a).
Proof. exists (Ok a), []. intros w. simpl. by rewrite app_nil_r. Qed.

Lemma blind_lift {A : Type} (r : result A) : blind (lift r).
Proof. exists r, []. intros w. simpl. by rewrite app_nil_r. Qed.

Lemma blind_raise {A : Type} (ex : exn) : blind (raise (A := A) ex).
Proof. exists (Raise ex), []. intros w. simpl. by rewrite app_nil_r. Qed.

Lemma blind_print (line : pystr) : blind (print line).
Proof. by exists (Ok tt), [Print line]. Qed.

Lemma blind_fs_write_text (p : pystr) (c : content) : blind (fs_write_text p c).
Proof. by exists (Ok tt), [FsWrite p c]. Qed.

Lemma blind_fs_open (p : pystr) : blind (fs_open e p).
Proof.
  unfold fs_open. destruct (open_error e p) as [ex|].
  - apply (blind_raise ex).
  - by exists (Ok tt), [FsOpen p].
Qed.

Lemma blind_fs_append (p s : pystr) : blind (fs_append e p s).
Proof.
  unfold fs_append. destruct (write_error e p s) as [ex|].
  - apply (blind_raise ex).
  - by exists (Ok tt), [FsAppend p s].
Qed.

Lemma blind_requests_get (req : request) : blind (requests_get e req).
Proof. by exists (network e req), [NetGet req]. Qed.

Lemma world_blind_bind_ok {A B : Type} (m : Py A) (k : A -> Py B) (a : A)
    (r : result B) (evs evs' : list event) :
  world_blind m (Ok a) evs -> world_blind (k a) r evs' ->
  world_blind (bind m k) r (evs ++ evs').
Proof.
  intros Hm Hk w. unfold bind. destruct (Hm w) as [Hr Hl].
  destruct (m w) as [r0 w']. simpl in Hr, Hl. subst r0.
  destruct (Hk w') as [Hr' Hl']. by rewrite Hr', Hl', Hl, app_assoc.
Qed.

Lemma world_blind_bind_raise {A B : Type} (m : Py A) (k : A -> Py B) (ex : exn)
    (evs : list event) :
  world_blind m (Raise ex) evs -> world_blind (bind m k) (Raise ex) evs.
Proof.
  intros Hm w. unfold bind. destruct (Hm w) as [Hr Hl].
  destruct (m w) as [r0 w']. simpl in Hr, Hl. by subst r0.
Qed.

Lemma blind_bind {A B : Type} (m : Py A) (k : A -> Py B) :
  blind m -> (forall a, blind (k a)) -> blind (bind m k).
Proof.
  intros ([a|ex] & evs & Hm) Hk.
  - destruct (Hk a) as (r & evs' & Hka).
    exists r, (evs ++ evs'). by eapply world_blind_bind_ok.
  - exists (Raise ex), evs. by apply world_blind_bind_raise.
Qed.

Lemma blind_try {A : Type} (m : Py A) : blind m -> blind (try m).
Proof.
  intros (r & evs & Hm). exists (Ok r), evs. intros w. unfold try.
  destruct (Hm w) as [Hr Hl]. destruct (m w) as [r0 w']. simpl in *.
  by subst r0.
Qed.

Lemma blind_for_each {A : Type} (l : list A) (f : A -> Py unit) :
  (forall x, blind (f x)) -> blind (for_each l f).
Proof.
  intros Hf. induction l as [|x l IH]; simpl.
  - apply blind_ret.
  - apply blind_bind; [apply Hf | intros _; apply IH].
Qed.

Ltac blind_steps :=
  repeat (first
    [ apply blind_ret | apply blind_lift | apply blind_print
    | apply blind_fs_write_text | apply blind_fs_open | apply blind_fs_append
    | apply blind_requests_get | apply blind_try
    | apply blind_for_each; intros ?
    | apply blind_bind; [|intros ?] ]).

Lemma blind_get_user_id (username : pystr) : blind (get_user_id e username).
Proof. unfold get_user_id. blind_steps. Qed.

Lemma blind_fetch_new_tweets (user_id since_id : json) :
  blind (fetch_new_tweets e user_id since_id).
Proof.
  unfold fetch_new_tweets. blind_steps.
  destruct (status_code _ =? 403); [apply blind_raise | apply blind_lift].
Qed.

Lemma blind_render (new_tweets : list json) : blind (render e new_tweets).
Proof. unfold render. blind_steps. Qed.

Lemma printed_app (evs evs' : list event) :
  printed (evs ++ evs') = printed evs ++ printed evs'.
Proof. unfold printed. by rewrite flat_map_app. Qed.

(** The result of [report] and the lines it prints do not depend on the
    state it is given, as long as the watermark can be set in it. *)
Lemma report_outcome (hk : pystr) (new_tweets : list json) :
  exists r lines,
    forall state,
      (forall v, exists state', set_since_id state hk v = Ok state') ->
      exists evs,
        world_blind (report e state hk new_tweets) r evs /\ printed evs = lines.
Proof.
  destruct (blind_render new_tweets) as (r & evs & Hrender).
  destruct (py_item (List.last new_tweets JNull) (str "id")) as [newest_id|ex] eqn:Hn.
  - exists r, (printed evs). intros state Hset.
    destruct (Hset newest_id) as [state' Hs].
    exists ([FsWrite STATE_FILE (Json state')] ++ evs). split; [|done].
    unfold report. rewrite Hn.
    apply (world_blind_bind_ok _ _ newest_id _ []);
      [intros w; simpl; by rewrite app_nil_r|].
    rewrite Hs.
    apply (world_blind_bind_ok _ _ state' _ []);
      [intros w; simpl; by rewrite app_nil_r|].
    refine (world_blind_bind_ok _ _ tt r [FsWrite STATE_FILE (Json state')] evs
              _ Hrender).
    by intros w.
  - exists (Raise ex), []. intros state _. exists []. split; [|done].
    unfold report. rewrite Hn. apply world_blind_bind_raise.
    intros w. simpl. by rewrite app_nil_r.
Qed.

Lemma loads_set_since_id (w : world) (state last_id : json) :
  loads e w state last_id ->
  forall v, exists state', set_since_id state (handle_key e) v = Ok state'.
Proof.
  intros (rec & _ & Hrec & Hlast) v. unfold set_since_id.
  destruct state as [| | | | |d]; try done. simpl in Hrec.
  destruct (dict_get (handle_key e) d) as [rec0|]; [|by eexists].
  injection Hrec as <-. destruct rec0; try done. by eexists.
Qed.

(** The outcome of a run depends on the world it starts in only through
    the identifier [last_id] it finds for the handle. *)
Lemma main_outcome (last_id : json) :
  exists r lines,
    forall w state,
      loads e w state last_id ->
      fst (main e w) = r /\ printed (new_events (main e) w) = lines.
Proof.
  assert (Hk : exists r lines, forall state,
             (forall v, exists state', set_since_id state (handle_key e) v = Ok state') ->
             exists evs,
               world_blind
                 (resolved <- try (get_user_id e (HANDLE e)) ;;
                  match resolved with
                  | Raise ex =>
                      print (str "[ERROR] Failed to resolve user id for @"
                             ++ HANDLE e ++ str ": " ++ exn_str ex) ;;;
                      ret 1
                  | Ok user_id =>
                      fetched <- try (fetch_new_tweets e user_id last_id) ;;
                      match fetched with
                      | Raise ex =>
                          print (str "[ERROR] Failed to fetch tweets: "
                                 ++ exn_str ex) ;;;
                          ret 1
                      | Ok [] => print NO_NEW_POSTS ;;; ret 0
                      | Ok new_tweets => report e state (handle_key e) new_tweets
                      end
                  end) r evs
               /\ printed evs = lines).
  { destruct (blind_try _ (blind_get_user_id (HANDLE e))) as (r1 & evs1 & H1).
    destruct r1 as [[user_id|ex]|ex].
    3:{ exists (Raise ex), (printed evs1). intros state _. exists evs1.
        split; [|done]. by apply world_blind_bind_raise. }
    2:{ exists (Ok 1), (printed (evs1 ++ [Print (str "[ERROR] Failed to resolve user id for @"
                             ++ HANDLE e ++ str ": " ++ exn_str ex)])).
        intros state _. eexists. split; [|done].
        eapply world_blind_bind_ok; [exact H1|]. by intros w. }
    destruct (blind_try _ (blind_fetch_new_tweets user_id last_id))
      as (r2 & evs2 & H2).
    destruct r2 as [[[|t ts]|ex]|ex].
    4:{ exists (Raise ex), (printed (evs1 ++ evs2)). intros state _.
        eexists. split; [|done].
        eapply world_blind_bind_ok; [exact H1|].
        by apply world_blind_bind_raise. }
    3:{ exists (Ok 1), (printed (evs1 ++ evs2 ++ [Print (str "[ERROR] Failed to fetch tweets: "
                                 ++ exn_str ex)])).
        intros state _. eexists. split; [|done].
        eapply world_blind_bind_ok; [exact H1|].
        eapply world_blind_bind_ok; [exact H2|]. by intros w. }
    1:{ exists (Ok 0), (printed (evs1 ++ evs2 ++ [Print NO_NEW_POSTS])).
        intros state _. eexists. split; [|done].
        eapply world_blind_bind_ok; [exact H1|].
        eapply world_blind_bind_ok; [exact H2|]. by intros w. }
    destruct (report_outcome (handle_key e) (t :: ts)) as (r & lines & Hrep).
    exists r, (printed evs1 ++ printed evs2 ++ lines). intros state Hset.
    destruct (Hrep state Hset) as (evs & Hb & Hlines).
    exists (evs1 ++ evs2 ++ evs). split.
    - eapply world_blind_bind_ok; [exact H1|].
      eapply world_blind_bind_ok; [exact H2|]. exact Hb.
    - by rewrite !printed_app, Hlines. }
  destruct Hk as (r & lines & Hk). exists r, lines. intros w state Hl.
  destruct (Hk state (loads_set_since_id w state last_id Hl)) as (evs & Hb & Hlines).
  unfold new_events. rewrite (main_loaded e w state last_id Hl).
  destruct (Hb (after_load w)) as [Hr Hlog]. split; [done|].
  rewrite Hlog. simpl. rewrite <- app_assoc, drop_app_length, printed_app, Hlines.
  unfold load_events. by destruct (files w !! STATE_FILE).
Qed.

End Blind.

(** ** C9: the keys a run does not own *)

Section Frame.
Context `{RT : PyRuntime}.

(** [set_since_id] on a dict: only the record of the handle changes, and in
    it only [since_id]. *)
Lemma set_since_id_frame (d : dict) (hk : pystr) (newest_id state' : json) :
  set_since_id (JObj d) hk newest_id = Ok state' ->
  exists d' rec',
    state' = JObj d'
    /\ dict_get hk d' = Some (JObj rec')
    /\ dict_get (str "since_id") rec' = Some newest_id
    /\ (forall k, k <> hk -> dict_get k d' = dict_get k d)
    /\ (forall f, f <> str "since_id" ->
          dict_get f rec'
          = match dict_get hk d with
            | Some (JObj rec) => dict_get f rec
            | _ => None
            end).
Proof.
  unfold set_since_id.
  destruct (dict_get hk d) as [[| | | | |rec]|] eqn:Hrec; try done;
    intros [= <-]; eexists _, _; (split; [reflexivity|]).
  - rewrite dict_get_set_eq. repeat split.
    + apply dict_get_set_eq.
    + intros k Hk. by apply dict_get_set_ne.
    + intros f Hf. apply dict_get_set_ne. congruence.
  - rewrite dict_get_set_eq. repeat split.
    + intros k Hk. by apply dict_get_set_ne.
    + intros f Hf. apply (dict_get_set_ne (str "since_id") f newest_id []).
      congruence.
Qed.

Lemma persisted_files (w w' : world) :
  files w' !! STATE_FILE = files w !! STATE_FILE -> persisted w' = persisted w.
Proof. unfold persisted. by intros ->. Qed.

End Frame.

(** C9: whatever a run does, if the persisted state was a mapping it still
    is one afterwards, every top-level key other than the lower-cased handle
    has the value it had, and every field of the handle's record other than
    [since_id] has the value it had (the state file is only ever replaced by
    the loaded mapping with [since_id] set in the handle's record).  And the
    other keys are not rejected: the result of the run and the lines it
    prints are the same from any other world in which the state loads and
    the same last identifier is found for the handle. *)
Theorem other_keys_preserved `{RT : PyRuntime} (e : env) (w : world) (d : dict) :
  persisted w = Some (JObj d) ->
  (exists d',
     persisted (snd (main e w)) = Some (JObj d')
     /\ (forall k, k <> handle_key e -> dict_get k d' = dict_get k d)
     /\ (forall rec,
           dict_get (handle_key e) d = Some (JObj rec) ->
           exists rec',
             dict_get (handle_key e) d' = Some (JObj rec')
             /\ forall f, f <> str "since_id" -> dict_get f rec' = dict_get f rec))
  /\ (forall w' state state' last_id,
        loads e w state last_id ->
        loads e w' state' last_id ->
        fst (main e w') = fst (main e w)
        /\ printed (new_events (main e) w') = printed (new_events (main e) w)).
Proof.
  intros Hp. split.
  - destruct (main_state_file e w)
      as [Hsame | (state & last_id & user_id & w2 & w3 & t & ts & newest_id
                   & state' & Hl & _ & _ & _ & Hset & Hfile)].
    + exists d. rewrite (persisted_files w) by (by rewrite Hsame).
      repeat split; [done|]. intros rec Hrec. by exists rec.
    + destruct Hl as (rec0 & Hp' & _ & _). rewrite Hp in Hp'.
      injection Hp' as <-.
      destruct (set_since_id_frame d (handle_key e) newest_id state' Hset)
        as (d' & rec' & -> & Hrec' & _ & Hother & Hfields).
      exists d'. repeat split.
      * unfold persisted. by rewrite Hfile.
      * exact Hother.
      * intros rec Hrec. exists rec'. split; [done|].
        intros f Hf. rewrite (Hfields f Hf). by rewrite Hrec.
  - intros w' state state' last_id Hl Hl'.
    destruct (main_outcome e last_id) as (r & lines & Hout).
    destruct (Hout w state Hl) as [-> ->].
    by destruct (Hout w' state' Hl') as [-> ->].
Qed.

(** The run of [second_run] from a state with a record for another handle
    and a field the script does not know. *)
Lemma other_keys_preserved_witness :
  exists d',
    persisted (snd (main (RT := Examples.runtime) Examples.second_run
                      (Examples.world_with (Json (JObj Examples.kept_state)))))
    = Some (JObj d')
    /\ (forall k, k <> handle_key (RT := Examples.runtime) Examples.second_run ->
          dict_get k d' = dict_get k Examples.kept_state)
    /\ (forall rec,
          dict_get (handle_key (RT := Examples.runtime) Examples.second_run)
            Examples.kept_state = Some (JObj rec) ->
          exists rec',
            dict_get (handle_key (RT := Examples.runtime) Examples.second_run) d'
            = Some (JObj rec')
            /\ forall f, f <> str "since_id" -> dict_get f rec' = dict_get f rec).
Proof.
  apply (proj1 (other_keys_preserved (RT := Examples.runtime)
                  Examples.second_run
                  (Examples.world_with (Json (JObj Examples.kept_state)))
                  Examples.kept_state eq_refl)).
Defined.

Example other_keys_preserved_run :
  persisted (snd (main (RT := Examples.runtime) Examples.second_run
                    (Examples.world_with (Json (JObj Examples.kept_state)))))
  = Some (JObj [(str "bob", JObj [(str "since_id", JStr (str "7"))]);
                (str "alice", JObj [(str "since_id", JStr (str "13"));
                                    (str "note", JStr (str "keep"))])]).
Proof. vm_compute. reflexivity. Qed.

(** ** C1: the watermark never decreases *)

Lemma wm_le_refl (a : option N) : wm_le a a.
Proof. destruct a; simpl; [lia | done]. Qed.

Lemma wm_le_trans (a b c : option N) : wm_le a b -> wm_le b c -> wm_le a c.
Proof. destruct a, b, c; simpl; try done; lia. Qed.

Lemma last_In {A : Type} (x : A) (l : list A) (d : A) :
  In (List.last (x :: l) d) (x :: l).
Proof.
  revert x. induction l as [|y l IH]; intros x.
  - by left.
  - right. apply (IH y).
Qed.

Section Watermark.
Context `{RT : PyRuntime}.

Lemma id_num_truthy (v : json) (n : N) : id_num v = Some n -> truthy v = true.
Proof. by destruct v as [| | |[|c s]| |]. Qed.

Lemma id_num_str (v : json) (n : N) : id_num v = Some n -> exists s, v = JStr s.
Proof. destruct v as [| | |s| |]; try done. by exists s. Qed.

(** A truthy [since_id] is sent as the parameter [since_id]. *)
Lemma tweets_params_since (since_id : json) :
  truthy since_id = true ->
  dict_get (str "since_id") (tweets_params since_id) = Some since_id.
Proof. unfold tweets_params. intros ->. apply dict_get_set_eq. Qed.

(** When the API honours [since_id], every post of a fetch made with a
    numeric [since_id] has a larger numeric identifier. *)
Lemma fetch_newer (e : env) (user_id since_id : json) (n : N) (w w' : world)
    (tweets : list json) :
  honours_since_id (network e) ->
  id_num since_id = Some n ->
  fetch_new_tweets e user_id since_id w = (Ok tweets, w') ->
  Forall (fun t => exists m, tweet_id_num t = Some m /\ (n < m)%N) tweets.
Proof.
  intros Hapi Hn Hf.
  destruct (fetch_ok_inv e _ _ _ _ _ Hf) as (h & r & d & l & Hh & Hr & Hb & Hd & Hs).
  destruct Hd as [Hd | [Hd ->]].
  2:{ injection Hs as <-. constructor. }
  assert (Hl : Forall (fun t => exists m, tweet_id_num t = Some m /\ (n < m)%N) l).
  { apply (Hapi _ r since_id n d l Hr); try done.
    apply tweets_params_since. by apply (id_num_truthy _ n). }
  assert (Hperm : Permutation tweets l).
  { apply sort_by_id_perm; [|done].
    eapply List.Forall_impl; [|exact Hl].
    intros t (m & Hm & _). unfold tweet_id_num in Hm.
    destruct (tweet_id t) as [v|]; [|done].
    destruct (id_num_str v m Hm) as [s ->]. by exists s. }
  by rewrite Hperm.
Qed.

(** One run does not lower the watermark of its handle. *)
Lemma watermark_step (e : env) (w : world) :
  honours_since_id (network e) ->
  wm_le (watermark (handle_key e) w) (watermark (handle_key e) (snd (main e w))).
Proof.
  intros Hapi.
  destruct (main_state_file e w)
    as [Hsame | (state & last_id & user_id & w2 & w3 & t & ts & newest_id
                 & state' & Hl & _ & Hf & Hnew & Hset & Hfile)].
  { unfold watermark, stored_since_id.
    rewrite (persisted_files w (snd (main e w))) by (by rewrite Hsame).
    apply wm_le_refl. }
  destruct (watermark (handle_key e) w) as [n|] eqn:Hw; [|done].
  unfold watermark, stored_since_id in Hw.
  destruct Hl as (rec0 & Hp & Hrec0 & Hlast). rewrite Hp in Hw.
  destruct state as [| | | | |d]; try done.
  simpl in Hrec0.
  destruct (dict_get (handle_key e) d) as [[| | | | |rec]|] eqn:Hrec; try done.
  injection Hrec0 as <-. simpl in Hlast.
  destruct (dict_get (str "since_id") rec) as [v|] eqn:Hv; [|done].
  injection Hlast as <-.
  pose proof (fetch_newer e user_id v n w2 w3 (t :: ts) Hapi Hw Hf) as Hnewer.
  rewrite List.Forall_forall in Hnewer.
  destruct (Hnewer _ (last_In t ts JNull)) as (m & Hm & Hlt).
  apply py_item_tweet_id in Hnew.
  unfold tweet_id_num in Hm. rewrite Hnew in Hm.
  destruct (set_since_id_frame d (handle_key e) newest_id state' Hset)
    as (d' & rec' & -> & Hrec' & Hsince & _ & _).
  unfold watermark, stored_since_id, persisted.
  rewrite Hfile, Hrec', Hsince, Hm. simpl. lia.
Qed.

End Watermark.

(** C1: over any sequence of runs for one handle against an API that
    honours [since_id], the watermark of the handle (the number its stored
    [since_id] denotes) never decreases: in the list of the worlds the runs
    go through, the watermark of each world is at most that of every later
    one. *)
Theorem since_id_never_decreases `{RT : PyRuntime} (h : pystr) (es : list env)
    (w : world) :
  Forall (fun e => HANDLE e = h /\ honours_since_id (network e)) es ->
  StronglySorted wm_le (List.map (watermark (str_lower h)) (history es w)).
Proof.
  intros Hes. revert w.
  induction Hes as [|e es [Hh Hapi] _ IH]; intros w; simpl.
  - repeat constructor.
  - specialize (IH (snd (main e w))).
    constructor; [exact IH|].
    pose proof (watermark_step e w Hapi) as Hstep.
    unfold handle_key in Hstep. rewrite Hh in Hstep.
    destruct es as [|e' es]; simpl in *.
    + by repeat constructor.
    + apply StronglySorted_inv in IH as [_ Htail].
      constructor; [done|].
      eapply List.Forall_impl; [|exact Htail].
      intros b Hb. by eapply wm_le_trans.
Qed.

Lemma timeline_honours_since_id (posts : list json) :
  honours_since_id (Examples.timeline posts).
Proof.
  intros req r since n d items Hr Hsince Hn Hb Hd.
  unfold Examples.timeline in Hr.
  destruct (dict_get (str "user.fields") (params req)).
  - injection Hr as <-. simpl in Hb. injection Hb as <-. by vm_compute in Hd.
  - rewrite Hsince in Hr. injection Hr as <-.
    unfold Examples.page in Hb. cbn [body] in Hb. injection Hb as <-.
    cbn [dict_get] in Hd. rewrite decide_True in Hd by done.
    injection Hd as <-.
    apply List.Forall_forall. intros t Ht.
    apply filter_In in Ht as [_ Ht]. unfold Examples.newer_than in Ht.
    rewrite Hn in Ht. destruct (tweet_id_num t) as [m|]; [|done].
    exists m. split; [done|]. by apply N.ltb_lt.
Qed.

Example two_runs_watermarks :
  List.map (watermark (str "alice"))
    (history (RT := Examples.runtime)
       [Examples.first_run; Examples.second_run] Examples.empty_world)
  = [None; Some 12%N; Some 13%N].
Proof. vm_compute. reflexivity. Qed.

Lemma since_id_never_decreases_witness :
  StronglySorted wm_le
    (List.map (watermark (@str_lower Examples.runtime (str "Alice")))
       (history (RT := Examples.runtime)
          [Examples.first_run; Examples.second_run] Examples.empty_world)).
Proof.
  apply (since_id_never_decreases (RT := Examples.runtime) (str "Alice")).
  repeat constructor; apply timeline_honours_since_id.
Defined.

(** ** C2: the order of the summary *)

Section Order.
Context `{RT : PyRuntime}.

(** What the sort does guarantee: with string identifiers the posts come
    out with keys that never go down in the order [<] of strings. *)
Lemma sort_by_id_sorted (l sorted : list json) :
  Forall (fun t => exists s, tweet_id t = Some (JStr s)) l ->
  sort_by_id l = Ok sorted ->
  exists sk,
    sorted = List.map snd sk
    /\ Sorted key_le sk
    /\ Forall (fun kt => tweet_id (snd kt) = Some (JStr (fst kt))) sk.
Proof.
  intros Hstr Hs.
  pose proof (sort_by_id_perm l sorted Hstr Hs) as Hperm.
  unfold sort_by_id, rbind in Hs.
  destruct (id_keys l) as [keyed|] eqn:Hk; [|done].
  destruct (id_keys_ok l keyed Hk) as [Hsnd Hid].
  destruct (str_keys keyed) as [sk|] eqn:Hsk.
  - injection Hs as <-. exists (stable_sort sk).
    split; [done|]. split; [apply stable_sort_sorted|].
    rewrite stable_sort_perm.
    clear -Hid Hsk. revert sk Hsk.
    induction Hid as [|[k t] keyed Hkt _ IH]; simpl; intros sk.
    + intros [= <-]. constructor.
    + destruct k; try done. destruct (str_keys keyed) as [sr|]; [|done].
      intros [= <-]. constructor; [done | by apply IH].
  - exfalso. destruct (str_keys_total keyed) as [sk Hsk']; [|congruence].
    apply List.Forall_forall. intros [k t] Hin.
    rewrite List.Forall_forall in Hstr, Hid.
    specialize (Hid _ Hin). simpl in Hid.
    destruct (Hstr t) as [s Hs'].
    + rewrite <- Hsnd. by apply (in_map snd) in Hin.
    + exists s. simpl. congruence.
Qed.

End Order.

(** C2 at a failing input: a first run whose timeline lists, newest first,
    the posts 1000000000000000000 and 999999999999999999.  The string sort
    leaves them in that order; so the summary, when both posts can be
    rendered, lists the larger identifier before the smaller one, and the
    watermark written is the smaller, older identifier, not the newest. *)
Theorem summary_order_at_rollover `{RT : PyRuntime} :
  fst (fetch_new_tweets Examples.rollover_run (JStr (str "42")) JNull
         Examples.empty_world)
  = Ok [Examples.tweet "1000000000000000000" (str "new");
        Examples.tweet "999999999999999999" (str "old")]
  /\ stored_since_id (handle_key Examples.rollover_run)
       (snd (main Examples.rollover_run Examples.empty_world))
     = Some (JStr (str "999999999999999999"))
  /\ (forall line_new line_old,
        summarize Examples.rollover_run
          (Examples.tweet "1000000000000000000" (str "new")) = Ok line_new ->
        summarize Examples.rollover_run
          (Examples.tweet "999999999999999999" (str "old")) = Ok line_old ->
        printed (log (snd (main Examples.rollover_run Examples.empty_world)))
        = [str "@Alice " ++ [EM_DASH] ++ str " 2 new post(s):";
           line_new;
           line_old;
           [LF] ++ str "Saved report: report_Alice_20240101T000000Z.md"])
  /\ (id_num (JStr (str "999999999999999999")) = Some 999999999999999999%N
      /\ id_num (JStr (str "1000000000000000000")) = Some 1000000000000000000%N).
Proof.
  assert (Hl : loads Examples.rollover_run Examples.empty_world (JObj []) JNull).
  { by exists (JObj []). }
  assert (Hu : get_user_id Examples.rollover_run (HANDLE Examples.rollover_run)
                 (after_load Examples.empty_world)
               = (Ok (JStr (str "42")),
                  snd (get_user_id Examples.rollover_run
                         (HANDLE Examples.rollover_run)
                         (after_load Examples.empty_world)))).
  { by vm_compute. }
  assert (Hf : forall w,
             fetch_new_tweets Examples.rollover_run (JStr (str "42")) JNull w
             = (Ok [Examples.tweet "1000000000000000000" (str "new");
                    Examples.tweet "999999999999999999" (str "old")],
                emit (NetGet (tweets_request (JStr (str "42")) JNull
                                Examples.bearer_header)) w)).
  { intros w. rewrite (surjective_pairing (fetch_new_tweets _ _ _ w)).
    rewrite (fetch_sent _ Examples.bearer_header) by done.
    by rewrite (fetch_response _ Examples.bearer_header
                  {| status_code := 200;
                     body := Some (Examples.page
                       [Examples.tweet "1000000000000000000" (str "new");
                        Examples.tweet "999999999999999999" (str "old")]) |}). }
  assert (Hm : main Examples.rollover_run Examples.empty_world
               = report Examples.rollover_run (JObj [])
                   (handle_key Examples.rollover_run)
                   [Examples.tweet "1000000000000000000" (str "new");
                    Examples.tweet "999999999999999999" (str "old")]
                   (emit (NetGet (tweets_request (JStr (str "42")) JNull
                                    Examples.bearer_header))
                      (snd (get_user_id Examples.rollover_run
                              (HANDLE Examples.rollover_run)
                              (after_load Examples.empty_world))))).
  { rewrite (main_loaded _ _ _ _ Hl).
    rewrite (bind_ok _ _ _ _ _ (try_eq _ _ _ _ Hu)).
    by rewrite (bind_ok _ _ _ _ _ (try_eq _ _ _ _ (Hf _))). }
  split; [by rewrite Hf|]. split; [|split; [|by vm_compute]].
  - unfold stored_since_id, persisted. rewrite Hm, report_state_file.
    simpl. by rewrite decide_True.
  - intros line_new line_old Hnew Hold. rewrite Hm.
    unfold report, render, for_each. py_unfold. simpl.
    rewrite Hnew, Hold. by vm_compute.
Qed.

(** With the runtime of the worked inputs both posts are rendered. *)
Example rollover_posts_rendered :
  exists line_new line_old,
    summarize (RT := Examples.runtime) Examples.rollover_run
      (Examples.tweet "1000000000000000000" (str "new")) = Ok line_new
    /\ summarize (RT := Examples.runtime) Examples.rollover_run
         (Examples.tweet "999999999999999999" (str "old")) = Ok line_old.
Proof. by eexists _, _. Qed.

(** ** What the code does guarantee about the order *)

(** A numeric string denotes [acc * 10^|s| + u] from the accumulator [acc],
    with [u] below [10^|s|] the number it denotes on its own. *)
Lemma digits_val_acc (s : pystr) (acc v : N) :
  digits_val acc s = Some v ->
  exists u,
    (u < 10 ^ N.of_nat (length s))%N
    /\ v = (acc * 10 ^ N.of_nat (length s) + u)%N
    /\ forall acc', digits_val acc' s
                    = Some (acc' * 10 ^ N.of_nat (length s) + u)%N.
Proof.
  revert acc v. induction s as [|c s IH]; intros acc v; simpl length.
  - intros [= <-]. exists 0%N. cbn [length N.of_nat]. rewrite N.pow_0_r.
    split; [lia|]. split; [lia|].
    intros acc'. simpl. f_equal. lia.
  - cbn [digits_val].
    destruct (N.leb_spec 48 c), (N.leb_spec c 57); simpl; try done.
    intros Hv. destruct (IH _ _ Hv) as (u & Hu & -> & Hall).
    rewrite Nat2N.inj_succ, N.pow_succ_r'.
    exists ((c - 48) * 10 ^ N.of_nat (length s) + u)%N.
    split; [nia|]. split; [lia|].
    intros acc'. rewrite Hall. f_equal. lia.
Qed.

(** On numeric strings of one length, the order [<] of strings is the order
    of the numbers they denote. *)
Lemma str_ltb_numeric (a b : pystr) (va vb : N) :
  length a = length b ->
  digits_val 0 a = Some va ->
  digits_val 0 b = Some vb ->
  str_ltb a b = (va <? vb)%N.
Proof.
  revert b va vb. induction a as [|x a IH]; intros [|y b] va vb Hlen; try done.
  - simpl. intros [= <-] [= <-]. done.
  - injection Hlen as Hlen. cbn [digits_val str_ltb].
    destruct (N.leb_spec 48 x), (N.leb_spec x 57); simpl; try done.
    destruct (N.leb_spec 48 y), (N.leb_spec y 57); simpl; try done.
    intros Ha Hb.
    destruct (digits_val_acc a _ _ Ha) as (ua & Hua & -> & Halla).
    destruct (digits_val_acc b _ _ Hb) as (ub & Hub & -> & Hallb).
    specialize (Halla 0%N). specialize (Hallb 0%N).
    rewrite N.mul_0_l, N.add_0_l in Halla, Hallb.
    rewrite <- Hlen in *.
    destruct (N.ltb_spec x y).
    { symmetry. apply N.ltb_lt. nia. }
    destruct (N.ltb_spec y x).
    { symmetry. apply N.ltb_ge. nia. }
    assert (x = y) as -> by lia.
    rewrite (IH b ua ub Hlen Halla Hallb).
    destruct (N.ltb_spec ua ub); symmetry; [apply N.ltb_lt | apply N.ltb_ge]; lia.
Qed.

(** In every run that saves, the identifier saved is that of the last post
    of the fetched list, the last one the summary lists. *)
Lemma saved_since_id_is_last `{RT : PyRuntime} (e : env) (w : world) :
  files (snd (main e w)) = files w
  \/ exists user_id last_id w2 w3 new_tweets,
       fetch_new_tweets e user_id last_id w2 = (Ok new_tweets, w3)
       /\ new_tweets <> []
       /\ stored_since_id (handle_key e) (snd (main e w))
          = tweet_id (List.last new_tweets JNull).
Proof.
  destruct (main_state_file e w)
    as [Hsame | (state & last_id & user_id & w2 & w3 & t & ts & newest_id
                 & state' & Hl & _ & Hf & Hnew & Hset & Hfile)]; [by left|].
  right. exists user_id, last_id, w2, w3, (t :: ts).
  split; [done|]. split; [done|].
  rewrite (py_item_tweet_id _ _ Hnew).
  destruct Hl as (rec & Hp & Hrec & _).
  destruct state as [| | | | |d]; try done.
  destruct (set_since_id_frame d (handle_key e) newest_id state' Hset)
    as (d' & rec' & -> & Hrec' & Hsince & _ & _).
  unfold stored_since_id, persisted. by rewrite Hfile, Hrec', Hsince.
Qed.

(** * Further properties of the script *)

(** ** The user lookup *)

(** X3: with a token, what [get_user_id] makes of the response to its
    request: [HTTPError] for every status from 400 to 599, the status 403
    included (no hint here); otherwise the [id] under [data] of the JSON
    body, [KeyError] when [data] or [id] is missing, and the decode error
    when the body is not JSON.  It sends exactly that one request. *)
Theorem get_user_id_outcome (e : env) (username : pystr) (w : world)
    (h : list (pystr * pystr)) (r : response) :
  headers e = Ok h ->
  network e (user_request username h) = Ok r ->
  new_events (get_user_id e username) w = [NetGet (user_request username h)]
  /\ (is_error_status (status_code r) = true ->
      fst (get_user_id e username w) = Raise (HTTPError (status_code r)))
  /\ (is_error_status (status_code r) = false ->
      (body r = None -> fst (get_user_id e username w) = Raise JSONDecodeError)
      /\ (forall d,
            body r = Some (JObj d) ->
            match dict_get (str "data") d with
            | None =>
                fst (get_user_id e username w) = Raise (KeyError (str "data"))
            | Some (JObj user) =>
                match dict_get (str "id") user with
                | Some id => fst (get_user_id e username w) = Ok id
                | None =>
                    fst (get_user_id e username w) = Raise (KeyError (str "id"))
                end
            | Some _ => fst (get_user_id e username w) = Raise TypeError
            end)).
Proof.
  intros Hh Hr.
  assert (Hfst : fst (get_user_id e username w)
                 = (_ <~ raise_for_status r ;;
                    data <~ response_json r ;;
                    d <~ py_item data (str "data") ;;
                    py_item d (str "id"))).
  { unfold get_user_id. py_unfold. by rewrite Hh, Hr. }
  rewrite Hfst. unfold raise_for_status, response_json, rbind.
  split; [|split].
  - apply new_events_app. by rewrite (get_user_id_sent e h).
  - by intros ->.
  - intros ->. split.
    + by intros ->.
    + intros d ->. simpl.
      destruct (dict_get (str "data") d) as [[| | | | |user]|]; try done.
      simpl. by destruct (dict_get (str "id") user).
Qed.

Lemma get_user_id_outcome_witness :
  fst (get_user_id
         (Examples.env_of (Some (str "token"))
            (MoreExamples.lookup_api (MoreExamples.lookup_response 403 None)))
         (str "Alice") Examples.empty_world)
  = Raise (HTTPError 403).
Proof.
  apply (proj1 (proj2 (get_user_id_outcome
                         (Examples.env_of (Some (str "token"))
                            (MoreExamples.lookup_api
                               (MoreExamples.lookup_response 403 None)))
                         (str "Alice") Examples.empty_world
                         Examples.bearer_header
                         (MoreExamples.lookup_response 403 None)
                         eq_refl eq_refl))).
  reflexivity.
Defined.

(** ** Runs that fail *)

Section FailingRuns.
Context `{RT : PyRuntime}.
Variable e : env.

(** The requests do not print. *)
Lemma get_user_id_printed (username : pystr) (w : world) :
  printed (new_events (get_user_id e username) w) = []
  /\ (net_calls (new_events (get_user_id e username) w) <= 1)%nat.
Proof.
  destruct (headers e) as [h|ex] eqn:Hh.
  - rewrite (new_events_app _ _ [NetGet (user_request username h)]);
      [split; [done | unfold net_calls; simpl; lia]|].
    by rewrite (get_user_id_sent e h).
  - rewrite (new_events_app _ _ []); [split; [done | unfold net_calls; simpl; lia]|].
    by rewrite (get_user_id_unsent e ex), app_nil_r.
Qed.

Lemma fetch_printed (user_id since_id : json) (w : world) :
  printed (new_events (fetch_new_tweets e user_id since_id) w) = []
  /\ (net_calls (new_events (fetch_new_tweets e user_id since_id) w) <= 1)%nat.
Proof.
  destruct (headers e) as [h|ex] eqn:Hh.
  - rewrite (new_events_app _ _ [NetGet (tweets_request user_id since_id h)]);
      [split; [done | unfold net_calls; simpl; lia]|].
    by rewrite (fetch_sent e h).
  - rewrite (new_events_app _ _ []); [split; [done | unfold net_calls; simpl; lia]|].
    by rewrite (fetch_unsent e ex), app_nil_r.
Qed.

Lemma get_user_id_log (username : pystr) (w : world) :
  log (snd (get_user_id e username w))
  = log w ++ new_events (get_user_id e username) w.
Proof.
  destruct (headers e) as [h|ex] eqn:Hh.
  - rewrite (new_events_app _ _ [NetGet (user_request username h)]);
      by rewrite (get_user_id_sent e h).
  - rewrite (new_events_app _ _ []);
      by rewrite (get_user_id_unsent e ex), ?app_nil_r.
Qed.

Lemma fetch_log (user_id since_id : json) (w : world) :
  log (snd (fetch_new_tweets e user_id since_id w))
  = log w ++ new_events (fetch_new_tweets e user_id since_id) w.
Proof.
  destruct (headers e) as [h|ex] eqn:Hh.
  - rewrite (new_events_app _ _ [NetGet (tweets_request user_id since_id h)]);
      by rewrite (fetch_sent e h).
  - rewrite (new_events_app _ _ []);
      by rewrite (fetch_unsent e ex), ?app_nil_r.
Qed.

Lemma printed_load_events (w : world) : printed (load_events w) = [].
Proof. unfold load_events. by destruct (files w !! STATE_FILE). Qed.

Lemma net_calls_load_events (w : world) : net_calls (load_events w) = 0%nat.
Proof. unfold load_events. by destruct (files w !! STATE_FILE). Qed.

Lemma net_calls_app (evs evs' : list event) :
  net_calls (evs ++ evs') = (net_calls evs + net_calls evs')%nat.
Proof. unfold net_calls. by rewrite List.filter_app, length_app. Qed.

End FailingRuns.

(** X4: when the state loads and the user lookup fails, for whatever
    reason, the run prints the one diagnostic of the lookup, with the text
    of the exception, and returns 1; it has sent at most the lookup request,
    never the timeline request, and no file is changed. *)
Theorem resolve_failure_stops_run `{RT : PyRuntime} (e : env) (w w2 : world)
    (state last_id : json) (ex : exn) :
  loads e w state last_id ->
  get_user_id e (HANDLE e) (after_load w) = (Raise ex, w2) ->
  fst (main e w) = Ok 1
  /\ printed (new_events (main e) w)
     = [str "[ERROR] Failed to resolve user id for @" ++ HANDLE e
        ++ str ": " ++ exn_str ex]
  /\ (net_calls (new_events (main e) w) <= 1)%nat
  /\ files (snd (main e w)) = files w.
Proof.
  intros Hl Hu.
  pose proof (get_user_id_printed e (HANDLE e) (after_load w)) as [Hp Hn].
  pose proof (get_user_id_log e (HANDLE e) (after_load w)) as Hlog.
  pose proof (get_user_id_files e (HANDLE e) (after_load w)) as Hfiles.
  rewrite Hu in Hlog, Hfiles. simpl in Hlog, Hfiles.
  assert (Hm : main e w
               = (Ok 1, emit (Print (str "[ERROR] Failed to resolve user id for @"
                                     ++ HANDLE e ++ str ": " ++ exn_str ex)) w2)).
  { rewrite (main_loaded e w state last_id Hl).
    by rewrite (bind_ok _ _ _ _ _ (try_eq _ _ _ _ Hu)). }
  assert (Hev : new_events (main e) w
                = load_events w
                  ++ new_events (get_user_id e (HANDLE e)) (after_load w)
                  ++ [Print (str "[ERROR] Failed to resolve user id for @"
                             ++ HANDLE e ++ str ": " ++ exn_str ex)]).
  { apply new_events_app. rewrite Hm. simpl. rewrite Hlog. simpl.
    by rewrite <- !app_assoc. }
  rewrite Hev, Hm. repeat split.
  - by rewrite !printed_app, printed_load_events, Hp.
  - rewrite !net_calls_app, net_calls_load_events.
    match goal with
    | |- context [net_calls [Print ?l]] =>
        change (net_calls [Print l]) with 0%nat
    end. lia.
  - done.
Qed.

Lemma resolve_failure_stops_run_witness :
  fst (main (RT := Examples.runtime)
         (Examples.env_of (Some (str "token")) (Examples.status_api 404))
         Examples.empty_world) = Ok 1.
Proof.
  apply (resolve_failure_stops_run (RT := Examples.runtime)
           (Examples.env_of (Some (str "token")) (Examples.status_api 404))
           Examples.empty_world
           (snd (get_user_id
                   (Examples.env_of (Some (str "token")) (Examples.status_api 404))
                   (str "Alice") (after_load Examples.empty_world)))
           (JObj []) JNull (HTTPError 404)).
  - exists (JObj []). by vm_compute.
  - reflexivity.
Defined.

(** X5: when the state loads, the user lookup succeeds and
    [fetch_new_tweets] raises, for whatever reason, the run prints the one
    diagnostic of the fetch, with the text of the exception, and returns 1;
    the watermark is not advanced: no file is changed. *)
Theorem fetch_failure_stops_run `{RT : PyRuntime} (e : env) (w w2 w3 : world)
    (state last_id user_id : json) (ex : exn) :
  loads e w state last_id ->
  get_user_id e (HANDLE e) (after_load w) = (Ok user_id, w2) ->
  fetch_new_tweets e user_id last_id w2 = (Raise ex, w3) ->
  fst (main e w) = Ok 1
  /\ printed (new_events (main e) w)
     = [str "[ERROR] Failed to fetch tweets: " ++ exn_str ex]
  /\ files (snd (main e w)) = files w.
Proof.
  intros Hl Hu Hf.
  pose proof (get_user_id_printed e (HANDLE e) (after_load w)) as [Hp _].
  pose proof (get_user_id_log e (HANDLE e) (after_load w)) as Hlog.
  pose proof (get_user_id_files e (HANDLE e) (after_load w)) as Hfiles.
  rewrite Hu in Hlog, Hfiles. simpl in Hlog, Hfiles.
  pose proof (fetch_printed e user_id last_id w2) as [Hp3 _].
  pose proof (fetch_log e user_id last_id w2) as Hlog3.
  pose proof (fetch_files e user_id last_id w2) as Hfiles3.
  rewrite Hf in Hlog3, Hfiles3. simpl in Hlog3, Hfiles3.
  assert (Hm : main e w
               = (Ok 1, emit (Print (str "[ERROR] Failed to fetch tweets: "
                                     ++ exn_str ex)) w3)).
  { rewrite (main_loaded e w state last_id Hl).
    rewrite (bind_ok _ _ _ _ _ (try_eq _ _ _ _ Hu)).
    by rewrite (bind_ok _ _ _ _ _ (try_eq _ _ _ _ Hf)). }
  assert (Hev : new_events (main e) w
                = load_events w
                  ++ new_events (get_user_id e (HANDLE e)) (after_load w)
                  ++ new_events (fetch_new_tweets e user_id last_id) w2
                  ++ [Print (str "[ERROR] Failed to fetch tweets: "
                             ++ exn_str ex)]).
  { apply new_events_app. rewrite Hm. simpl. rewrite Hlog3, Hlog. simpl.
    by rewrite <- !app_assoc. }
  rewrite Hev, Hm. repeat split.
  - by rewrite !printed_app, printed_load_events, Hp, Hp3.
  - simpl. congruence.
Qed.

Lemma fetch_failure_stops_run_witness :
  fst (main (RT := Examples.runtime)
         (Examples.env_of (Some (str "token")) (MoreExamples.timeline_status 500))
         Examples.empty_world) = Ok 1.
Proof.
  pose (e := Examples.env_of (Some (str "token"))
               (MoreExamples.timeline_status 500)).
  pose (w2 := snd (get_user_id e (str "Alice") (after_load Examples.empty_world))).
  apply (fetch_failure_stops_run (RT := Examples.runtime) e Examples.empty_world
           w2 (snd (fetch_new_tweets (RT := Examples.runtime) e
                      (JStr (str "42")) JNull w2))
           (JObj []) JNull (JStr (str "42")) (HTTPError 500)).
  - exists (JObj []). by vm_compute.
  - reflexivity.
  - reflexivity.
Defined.

(** ** What a run may do *)

Section Emits.
Context `{RT : PyRuntime}.
Variable e : env.
Variable Q : event -> Prop.

Lemma emits_weaken {A : Type} (m : Py A) (n n' : nat) :
  (n <= n')%nat -> emits m n Q -> emits m n' Q.
Proof.
  intros Hn Hm w. destruct (Hm w) as (evs & Hl & Hc & Hq).
  exists evs. repeat split; [done | lia | done].
Qed.

Lemma emits_silent {A : Type} (m : Py A) :
  (forall w, log (snd (m w)) = log w) -> emits m 0 Q.
Proof.
  intros Hm w. exists []. rewrite app_nil_r. repeat split; [done | | done].
  unfold net_calls. simpl. lia.
Qed.

Lemma emits_ret {A : Type} (a : A) : emits (ret a) 0 Q.
Proof. by apply emits_silent. Qed.

Lemma emits_raise {A : Type} (ex : exn) : emits (raise (A := A) ex) 0 Q.
Proof. by apply emits_silent. Qed.

Lemma emits_lift {A : Type} (r : result A) : emits (lift r) 0 Q.
Proof. by apply emits_silent. Qed.

(** A computation that adds one event which is not a request. *)
Lemma emits_one {A : Type} (m : Py A) (ev : event) :
  is_net_event ev = false -> Q ev ->
  (forall w, log (snd (m w)) = log w ++ [ev]) -> emits m 0 Q.
Proof.
  intros Hnet Hq Hm w. exists [ev]. repeat split; [done | | by repeat constructor].
  unfold net_calls. simpl. rewrite Hnet. simpl. lia.
Qed.

Lemma emits_print (line : pystr) : Q (Print line) -> emits (print line) 0 Q.
Proof. intros Hq. by apply (emits_one _ (Print line)). Qed.

Lemma emits_fs_exists (p : pystr) : Q (FsExists p) -> emits (fs_exists p) 0 Q.
Proof. intros Hq. by apply (emits_one _ (FsExists p)). Qed.

Lemma emits_fs_read_text (p : pystr) : Q (FsRead p) -> emits (fs_read_text p) 0 Q.
Proof.
  intros Hq. apply (emits_one _ (FsRead p)); [done | done |].
  intros w. unfold fs_read_text. by destruct (files w !! p).
Qed.

Lemma emits_fs_write_text (p : pystr) (c : content) :
  Q (FsWrite p c) -> emits (fs_write_text p c) 0 Q.
Proof. intros Hq. by apply (emits_one _ (FsWrite p c)). Qed.

Lemma emits_fs_open (p : pystr) : Q (FsOpen p) -> emits (fs_open e p) 0 Q.
Proof.
  intros Hq. unfold fs_open. destruct (open_error e p) as [ex|].
  - apply (emits_raise ex).
  - by apply (emits_one _ (FsOpen p)).
Qed.

Lemma emits_fs_append (p s : pystr) :
  Q (FsAppend p s) -> emits (fs_append e p s) 0 Q.
Proof.
  intros Hq. unfold fs_append. destruct (write_error e p s) as [ex|].
  - apply (emits_raise ex).
  - by apply (emits_one _ (FsAppend p s)).
Qed.

Lemma emits_requests_get (req : request) :
  Q (NetGet req) -> emits (requests_get e req) 1 Q.
Proof.
  intros Hq w. exists [NetGet req]. repeat split; [| by repeat constructor].
  unfold net_calls. simpl. lia.
Qed.

Lemma emits_bind {A B : Type} (m : Py A) (k : A -> Py B) (a b : nat) :
  emits m a Q ->
  (forall x w, fst (m w) = Ok x -> emits (k x) b Q) ->
  emits (bind m k) (a + b) Q.
Proof.
  intros Hm Hk w. unfold bind. destruct (Hm w) as (evs & Hl & Hc & Hq).
  destruct (m w) as [[x|ex] w'] eqn:Hmw; simpl in Hl.
  - destruct (Hk x w (f_equal fst Hmw) w') as (evs' & Hl' & Hc' & Hq').
    exists (evs ++ evs'). rewrite Hl', Hl, app_assoc.
    repeat split; [| by apply Forall_app].
    unfold net_calls in *. rewrite List.filter_app, length_app. lia.
  - exists evs. repeat split; [done | lia | done].
Qed.

Lemma emits_try {A : Type} (m : Py A) (n : nat) :
  emits m n Q -> emits (try m) n Q.
Proof.
  intros Hm w. unfold try. destruct (Hm w) as (evs & Hl & Hc & Hq).
  destruct (m w) as [r w']. by exists evs.
Qed.

Lemma emits_for_each {A : Type} (l : list A) (f : A -> Py unit) :
  (forall x, emits (f x) 0 Q) -> emits (for_each l f) 0 Q.
Proof.
  intros Hf. induction l as [|x l IH]; simpl.
  - apply emits_ret.
  - apply (emits_bind _ _ 0 0); [apply Hf | intros _ _ _; apply IH].
Qed.

End Emits.

Section Discipline.
Context `{RT : PyRuntime}.
Variable e : env.

Lemma emits_load_state : emits load_state 0 (allowed_event e).
Proof.
  unfold load_state.
  apply (emits_bind _ _ _ 0 0); [by apply emits_fs_exists|].
  intros [|] _ _; [|apply emits_ret].
  apply (emits_bind _ _ _ 0 0); [by apply emits_fs_read_text|].
  intros [v|s] _ _; [apply emits_ret | apply emits_raise].
Qed.

Lemma emits_get_user_id :
  emits (get_user_id e (HANDLE e)) 1 (allowed_event e).
Proof.
  unfold get_user_id.
  apply (emits_bind _ _ _ 0 1); [apply emits_lift|].
  intros h w Hh.
  apply (emits_bind _ _ _ 1 0); [|intros; apply emits_lift].
  apply emits_requests_get. exists h. split; [done | by left].
Qed.

Lemma emits_fetch_new_tweets (user_id since_id : json) :
  emits (fetch_new_tweets e user_id since_id) 1 (allowed_event e).
Proof.
  unfold fetch_new_tweets.
  apply (emits_bind _ _ _ 0 1); [apply emits_lift|].
  intros h w Hh.
  apply (emits_bind _ _ _ 1 0).
  - apply emits_requests_get. exists h. split; [done|]. right. by eexists _, _.
  - intros r _ _. destruct (status_code r =? 403);
      [apply emits_raise | apply emits_lift].
Qed.

Lemma emits_render (new_tweets : list json) :
  emits (render e new_tweets) 0 (allowed_event e).
Proof.
  unfold render.
  repeat (first
    [ apply emits_ret | apply emits_lift
    | by apply emits_print | by apply emits_fs_open | by apply emits_fs_append
    | apply emits_for_each; intros ?
    | apply (emits_bind _ _ _ 0 0); [|intros ? ? _] ]).
Qed.

Lemma emits_report (state : json) (hk : pystr) (new_tweets : list json) :
  emits (report e state hk new_tweets) 0 (allowed_event e).
Proof.
  unfold report.
  apply (emits_bind _ _ _ 0 0); [apply emits_lift | intros newest_id _ _].
  apply (emits_bind _ _ _ 0 0); [apply emits_lift | intros state' _ _].
  apply (emits_bind _ _ _ 0 0); [by apply emits_fs_write_text | intros _ _ _].
  apply emits_render.
Qed.

(** A run adds to the log at most two requests and only allowed events. *)
Lemma emits_main : emits (main e) 2 (allowed_event e).
Proof.
  unfold main.
  apply (emits_bind _ _ _ 0 2); [apply emits_load_state | intros state _ _].
  apply (emits_bind _ _ _ 0 2); [apply emits_lift | intros rec _ _].
  apply (emits_bind _ _ _ 0 2); [apply emits_lift | intros last_id _ _].
  apply (emits_bind _ _ _ 1 1); [apply emits_try, emits_get_user_id|].
  intros [user_id|ex] _ _.
  2:{ apply (emits_weaken _ _ 0 1); [lia|].
      apply (emits_bind _ _ _ 0 0); [by apply emits_print | intros; apply emits_ret]. }
  apply (emits_bind _ _ _ 1 0); [apply emits_try, emits_fetch_new_tweets|].
  intros [[|t ts]|ex] _ _.
  - apply (emits_bind _ _ _ 0 0); [by apply emits_print | intros; apply emits_ret].
  - apply emits_report.
  - apply (emits_bind _ _ _ 0 0); [by apply emits_print | intros; apply emits_ret].
Qed.

End Discipline.

(** X6: a run sends at most two requests, and never one without a token:
    every request carries the [Authorization] header made of the bearer
    token, which is then present and not empty, and the timeout of 30. *)
Theorem run_requests_authorized `{RT : PyRuntime} (e : env) (w : world) :
  (net_calls (new_events (main e) w) <= 2)%nat
  /\ forall req,
       In (NetGet req) (new_events (main e) w) ->
       exists b,
         BEARER e = Some b /\ b <> []
         /\ headers_of req = [(str "Authorization", str "Bearer " ++ b)]
         /\ timeout req = 30.
Proof.
  destruct (emits_main e w) as (evs & Hl & Hc & Hq).
  rewrite (new_events_app _ _ _ Hl). split; [done|].
  intros req Hin. rewrite List.Forall_forall in Hq.
  destruct (Hq _ Hin) as (h & Hh & Hreq).
  unfold headers in Hh. destruct (BEARER e) as [[|c b]|]; try done.
  injection Hh as <-. exists (c :: b). repeat split; [done | |].
  - by destruct Hreq as [-> | (u & s & ->)].
  - by destruct Hreq as [-> | (u & s & ->)].
Qed.

Section KeepsPath.
Context `{RT : PyRuntime}.
Variable e : env.
Variable p : pystr.

Lemma keeps_path_same {A : Type} (m : Py A) :
  (forall w, files (snd (m w)) = files w) -> keeps_path p m.
Proof. intros Hm w. by rewrite Hm. Qed.

Lemma keeps_path_bind {A B : Type} (m : Py A) (k : A -> Py B) :
  keeps_path p m -> (forall a, keeps_path p (k a)) -> keeps_path p (bind m k).
Proof.
  intros Hm Hk w. unfold bind. specialize (Hm w).
  destruct (m w) as [[a|ex] w']; simpl in *; [|done].
  by rewrite Hk.
Qed.

Lemma keeps_path_try {A : Type} (m : Py A) :
  keeps_path p m -> keeps_path p (try m).
Proof. intros Hm w. unfold try. specialize (Hm w). by destruct (m w). Qed.

Lemma keeps_path_for_each {A : Type} (l : list A) (f : A -> Py unit) :
  (forall x, keeps_path p (f x)) -> keeps_path p (for_each l f).
Proof.
  intros Hf. induction l as [|x l IH]; simpl.
  - by apply keeps_path_same.
  - apply keeps_path_bind; [apply Hf | intros _; apply IH].
Qed.

Lemma keeps_path_write (q : pystr) (c : content) :
  q <> p -> keeps_path p (fs_write_text q c).
Proof. intros Hq w. simpl. by rewrite lookup_insert_ne. Qed.

Lemma keeps_path_open (q : pystr) : q <> p -> keeps_path p (fs_open e q).
Proof.
  intros Hq w. unfold fs_open. destruct (open_error e q); [done|].
  simpl. by rewrite lookup_insert_ne.
Qed.

Lemma keeps_path_append (q s : pystr) :
  q <> p -> keeps_path p (fs_append e q s).
Proof.
  intros Hq w. unfold fs_append. destruct (write_error e q s); [done|].
  simpl. by rewrite lookup_insert_ne.
Qed.

Lemma keeps_path_render (new_tweets : list json) :
  p <> report_name e -> keeps_path p (render e new_tweets).
Proof.
  intros not_report.
  unfold render.
  repeat (first
    [ by apply keeps_path_same
    | by apply keeps_path_open | by apply keeps_path_append
    | apply keeps_path_for_each; intros ?
    | apply keeps_path_bind; [|intros ?] ]).
Qed.

Lemma keeps_path_main :
  p <> STATE_FILE -> p <> report_name e -> keeps_path p (main e).
Proof.
  intros not_state not_report. unfold main.
  apply keeps_path_bind.
  { apply keeps_path_same. intros w. by rewrite load_state_eq. }
  intros state.
  apply keeps_path_bind; [by apply keeps_path_same | intros rec].
  apply keeps_path_bind; [by apply keeps_path_same | intros last_id].
  apply keeps_path_bind.
  { apply keeps_path_try, keeps_path_same, get_user_id_files. }
  intros [user_id|ex].
  2:{ apply keeps_path_bind; [|intros ?]; by apply keeps_path_same. }
  apply keeps_path_bind.
  { apply keeps_path_try, keeps_path_same, fetch_files. }
  intros [[|t ts]|ex].
  1,3: apply keeps_path_bind; [|intros ?]; by apply keeps_path_same.
  unfold report.
  apply keeps_path_bind; [by apply keeps_path_same | intros newest_id].
  apply keeps_path_bind; [by apply keeps_path_same | intros state'].
  apply keeps_path_bind; [by apply keeps_path_write | intros _].
  by apply keeps_path_render.
Qed.

End KeepsPath.

(** X7: a run touches two files only.  It looks at, reads and writes
    [state.json] and nothing else, it opens and appends to the report file
    of the run and nothing else, and every other file is after the run what
    it was before. *)
Theorem run_files_confined `{RT : PyRuntime} (e : env) (w : world) :
  (forall ev,
     In ev (new_events (main e) w) ->
     match ev with
     | FsExists p | FsRead p | FsWrite p _ => p = STATE_FILE
     | FsOpen p | FsAppend p _ => p = report_name e
     | NetGet _ | Print _ => True
     end)
  /\ (forall p,
        p <> STATE_FILE -> p <> report_name e ->
        files (snd (main e w)) !! p = files w !! p).
Proof.
  split.
  - destruct (emits_main e w) as (evs & Hl & Hc & Hq).
    rewrite (new_events_app _ _ _ Hl).
    intros ev Hin. rewrite List.Forall_forall in Hq. specialize (Hq _ Hin).
    by destruct ev.
  - intros p Hs Hr. by apply keeps_path_main.
Qed.

(** ** Runs that report *)

Section Reporting.
Context `{RT : PyRuntime}.
Variable e : env.

(** The run from a fetch that returned posts. *)
Lemma main_reports (w w2 w3 : world) (state last_id user_id : json)
    (new_tweets : list json) :
  loads e w state last_id ->
  get_user_id e (HANDLE e) (after_load w) = (Ok user_id, w2) ->
  fetch_new_tweets e user_id last_id w2 = (Ok new_tweets, w3) ->
  new_tweets <> [] ->
  main e w = report e state (handle_key e) new_tweets w3
  /\ files w3 = files w
  /\ exists evs, log w3 = log w ++ evs /\ printed evs = [].
Proof.
  intros Hl Hu Hf Hne. split; [|split].
  - rewrite (main_loaded e w state last_id Hl).
    rewrite (bind_ok _ _ _ _ _ (try_eq _ _ _ _ Hu)).
    rewrite (bind_ok _ _ _ _ _ (try_eq _ _ _ _ Hf)).
    by destruct new_tweets.
  - pose proof (get_user_id_files e (HANDLE e) (after_load w)) as H2.
    pose proof (fetch_files e user_id last_id w2) as H3.
    rewrite Hu in H2. rewrite Hf in H3. simpl in *. congruence.
  - pose proof (get_user_id_log e (HANDLE e) (after_load w)) as H2.
    pose proof (fetch_log e user_id last_id w2) as H3.
    pose proof (get_user_id_printed e (HANDLE e) (after_load w)) as [P2 _].
    pose proof (fetch_printed e user_id last_id w2) as [P3 _].
    rewrite Hu in H2. rewrite Hf in H3. simpl in H2, H3.
    eexists. split.
    + rewrite H3, H2. simpl. rewrite <- !app_assoc. reflexivity.
    + by rewrite !printed_app, printed_load_events, P2, P3.
Qed.

(** [report] with a last post that has an identifier: the state is saved,
    then the summary is rendered. *)
Lemma report_saves (state state' newest_id : json) (hk : pystr)
    (new_tweets : list json) (w : world) :
  py_item (List.last new_tweets JNull) (str "id") = Ok newest_id ->
  set_since_id state hk newest_id = Ok state' ->
  report e state hk new_tweets w
  = render e new_tweets (snd (save_state state' w)).
Proof.
  intros Hn Hs. unfold report. unfold bind at 1, lift at 1. rewrite Hn.
  unfold bind at 1, lift at 1. rewrite Hs. by unfold bind at 1.
Qed.

(** The loop that prints the summary: all lines when every post renders,
    the exception of the first post that does not. *)
Lemma print_loop_ok (l : list json) (lines : list pystr) (w : world) :
  summaries e l = Ok lines ->
  for_each l (fun t => line <- lift (summarize e t) ;; print line) w
  = (Ok tt, {| files := files w; log := log w ++ List.map Print lines |}).
Proof.
  revert lines w. induction l as [|t l IH]; cbn [for_each summaries];
    intros lines w.
  - intros [= <-]. simpl. rewrite app_nil_r. by destruct w.
  - unfold rbind. destruct (summarize e t) as [line|] eqn:Hs; [|done].
    destruct (summaries e l) as [rest|] eqn:Hr; [|done]. intros [= <-].
    py_unfold. rewrite (IH rest _ eq_refl). simpl.
    by rewrite <- app_assoc.
Qed.

Lemma print_loop_raises (l : list json) (w : world) :
  Exists (fun t => exists ex, summarize e t = Raise ex) l ->
  exists ex w',
    for_each l (fun t => line <- lift (summarize e t) ;; print line) w
    = (Raise ex, w')
    /\ files w' = files w.
Proof.
  intros Hex. revert w. induction l as [|t l IH]; intros w.
  - by apply Exists_nil in Hex.
  - cbn [for_each]. py_unfold. destruct (summarize e t) as [line|ex] eqn:Hs.
    + apply Exists_cons in Hex as [(ex & Hex)|Hex]; [congruence|].
      destruct (IH Hex (emit (Print line) w)) as (ex & w' & Hw' & Hf).
      exists ex, w'. simpl. by rewrite Hw'.
    + by exists ex, w.
Qed.

(** The loop that writes the report: the lines, each followed by a line
    feed, are appended to the text of the report file. *)
Lemma append_loop_ok (l : list json) (lines : list pystr) (old : pystr)
    (w : world) :
  (forall s, write_error e (report_name e) s = None) ->
  summaries e l = Ok lines ->
  files w !! report_name e = Some (Text old) ->
  exists w',
    for_each l (fun t => line <- lift (summarize e t) ;;
                         fs_append e (report_name e) (line ++ [LF])) w
    = (Ok tt, w')
    /\ files w' !! report_name e
       = Some (Text (old ++ concat (List.map (fun line => line ++ [LF]) lines)))
    /\ files w' !! STATE_FILE = files w !! STATE_FILE
    /\ exists evs, log w' = log w ++ evs /\ printed evs = [].
Proof.
  intros Hwrite.
  revert lines old w. induction l as [|t l IH]; cbn [for_each summaries];
    intros lines old w.
  - intros [= <-] Hold. exists w. simpl. rewrite !app_nil_r.
    repeat split; [done|]. exists []. by rewrite app_nil_r.
  - unfold rbind. destruct (summarize e t) as [line|] eqn:Hs; [|done].
    destruct (summaries e l) as [rest|] eqn:Hr; [|done]. intros [= <-] Hold.
    py_unfold. rewrite Hwrite. simpl. rewrite Hold.
    destruct (IH rest (old ++ line ++ [LF])
                {| files := <[report_name e := Text (old ++ line ++ [LF])]> (files w);
                   log := log w ++ [FsAppend (report_name e) (line ++ [LF])] |}
                eq_refl)
      as (w' & Hw' & Hrep & Hstate & evs & Hlog & Hp).
    { simpl. by rewrite lookup_insert_eq. }
    exists w'. rewrite Hw'. repeat split.
    + rewrite Hrep. simpl. by rewrite <- !app_assoc.
    + rewrite Hstate. simpl. rewrite lookup_insert_ne; [done|].
      apply report_name_not_state_file.
    + exists ([FsAppend (report_name e) (line ++ [LF])] ++ evs).
      rewrite Hlog. simpl. rewrite <- app_assoc. split; [done|].
      exact Hp.
Qed.

Lemma printed_prints (lines : list pystr) :
  printed (List.map Print lines) = lines.
Proof. induction lines as [|l lines IH]; simpl; [done | by rewrite IH]. Qed.

(** [render] when every post renders. *)
Lemma render_ok (new_tweets : list json) (lines : list pystr) (w : world) :
  open_error e (report_name e) = None ->
  (forall s, write_error e (report_name e) s = None) ->
  summaries e new_tweets = Ok lines ->
  exists w',
    render e new_tweets w = (Ok 0, w')
    /\ files w' !! report_name e = Some (Text (report_text e lines))
    /\ files w' !! STATE_FILE = files w !! STATE_FILE
    /\ exists evs,
         log w' = log w ++ evs
         /\ printed evs
            = summary_header e (length new_tweets) :: lines ++ [saved_line e].
Proof.
  intros Hopen Hwrite Hs. unfold render.
  unfold bind at 1, print at 1.
  unfold bind at 1. rewrite (print_loop_ok new_tweets lines _ Hs).
  unfold bind at 1, fs_open at 1. rewrite Hopen.
  unfold bind at 1, fs_append at 1. rewrite Hwrite.
  cbn [files log emit]. rewrite lookup_insert_eq.
  match goal with
  | |- context [bind (for_each _ _) _ ?w0] =>
      destruct (append_loop_ok new_tweets lines
                  ([] ++ str "# Updates for @" ++ HANDLE e ++ [LF; LF]) w0
                  Hwrite Hs)
        as (w1 & Hw1 & Hrep & Hstate & evs & Hlog & Hp);
        [simpl; by rewrite lookup_insert_eq|]
  end.
  unfold bind at 1. rewrite Hw1. unfold bind at 1, print at 1, ret.
  eexists. split; [reflexivity|]. cbn [files log emit snd]. repeat split.
  - by rewrite Hrep.
  - rewrite Hstate. cbn [files]. 
    rewrite !lookup_insert_ne; [done | |]; apply report_name_not_state_file.
  - eexists. split.
    + rewrite Hlog. cbn [log]. rewrite <- !app_assoc. reflexivity.
    + rewrite !printed_app, Hp, printed_prints.
      cbn [printed flat_map app]. reflexivity.
Qed.

(** [render] when some post does not render: the exception leaves
    [render] before the report file is opened. *)
Lemma render_raises (new_tweets : list json) (w : world) :
  Exists (fun t => exists ex, summarize e t = Raise ex) new_tweets ->
  exists ex w',
    render e new_tweets w = (Raise ex, w') /\ files w' = files w.
Proof.
  intros Hex. unfold render. unfold bind at 1, print at 1.
  destruct (print_loop_raises new_tweets
              (emit (Print (str "@" ++ HANDLE e ++ [SPACE; EM_DASH; SPACE]
                            ++ str_of_nat (length new_tweets)
                            ++ str " new post(s):")) w) Hex)
    as (ex & w' & Hw' & Hf).
  exists ex, w'. unfold bind at 1. by rewrite Hw'.
Qed.

(** [render] when [open] raises: the summary is printed, then the
    exception leaves [render]; no file is changed. *)
Lemma render_open_raises (new_tweets : list json) (lines : list pystr)
    (ex : exn) (w : world) :
  summaries e new_tweets = Ok lines ->
  open_error e (report_name e) = Some ex ->
  render e new_tweets w
  = (Raise ex,
     {| files := files w;
        log := log w
               ++ Print (str "@" ++ HANDLE e ++ [SPACE; EM_DASH; SPACE]
                         ++ str_of_nat (length new_tweets)
                         ++ str " new post(s):")
                  :: List.map Print lines |}).
Proof.
  intros Hs Hopen. unfold render. unfold bind at 1, print at 1.
  unfold bind at 1. rewrite (print_loop_ok new_tweets lines _ Hs).
  unfold bind at 1, fs_open at 1. rewrite Hopen. cbn [files log emit].
  by rewrite <- app_assoc.
Qed.

(** The state a saving run leaves. *)
Lemma saved_state (w : world) (state state' newest_id : json) :
  persisted w = Some state' ->
  set_since_id state (handle_key e) newest_id = Ok state' ->
  stored_since_id (handle_key e) w = Some newest_id
  /\ forall e',
       handle_key e' = handle_key e -> loads e' w state' newest_id.
Proof.
  intros Hp Hs. unfold set_since_id in Hs.
  destruct state as [| | | | |d]; try done.
  destruct (set_since_id_frame d (handle_key e) newest_id state' Hs)
    as (d' & rec' & -> & Hrec' & Hsince & _ & _).
  split.
  - unfold stored_since_id. by rewrite Hp, Hrec', Hsince.
  - intros e' He'. exists (JObj rec'). rewrite He'. simpl.
    by rewrite Hrec', Hsince.
Qed.

End Reporting.

(** X9: a run whose fetch returned posts that all render, in an
    environment in which the report file can be opened and written (the
    console is taken to print).  It returns 0; it prints the header with the
    number of posts, one rendered line per post in the order of the fetched
    list, and the line naming the report; the report file holds the heading
    and the same lines, each followed by a line feed, whatever the file held
    before; and the [since_id] stored is the identifier of the last post. *)
Theorem successful_run `{RT : PyRuntime} (e : env) (w w2 w3 : world)
    (state last_id user_id newest_id : json) (new_tweets : list json)
    (lines : list pystr) :
  loads e w state last_id ->
  get_user_id e (HANDLE e) (after_load w) = (Ok user_id, w2) ->
  fetch_new_tweets e user_id last_id w2 = (Ok new_tweets, w3) ->
  new_tweets <> [] ->
  py_item (List.last new_tweets JNull) (str "id") = Ok newest_id ->
  summaries e new_tweets = Ok lines ->
  open_error e (report_name e) = None ->
  (forall s, write_error e (report_name e) s = None) ->
  fst (main e w) = Ok 0
  /\ printed (new_events (main e) w)
     = summary_header e (length new_tweets) :: lines ++ [saved_line e]
  /\ files (snd (main e w)) !! report_name e = Some (Text (report_text e lines))
  /\ stored_since_id (handle_key e) (snd (main e w)) = Some newest_id.
Proof.
  intros Hl Hu Hf Hne Hn Hs Hopen Hwrite.
  destruct (main_reports e w w2 w3 state last_id user_id new_tweets Hl Hu Hf Hne)
    as (Hm & Hfiles & evs3 & Hlog3 & Hp3).
  destruct (loads_set_since_id e w state last_id Hl newest_id) as [state' Hset].
  rewrite (report_saves e state state' newest_id _ _ _ Hn Hset) in Hm.
  destruct (render_ok e new_tweets lines (snd (save_state state' w3))
              Hopen Hwrite Hs)
    as (w' & Hr & Hrep & Hstate & evs & Hlog & Hp).
  unfold new_events. rewrite Hm, Hr. cbn [fst snd]. repeat split.
  - rewrite Hlog. cbn [save_state fs_write_text snd log]. rewrite Hlog3.
    rewrite <- !app_assoc, drop_app_length, !printed_app, Hp3, Hp. done.
  - exact Hrep.
  - apply (saved_state e w' state state' newest_id); [|done].
    unfold persisted. rewrite Hstate. simpl. by rewrite lookup_insert_eq.
Qed.

Lemma successful_run_witness :
  fst (main (RT := Examples.runtime) Examples.first_run Examples.empty_world)
  = Ok 0
  /\ stored_since_id (handle_key (RT := Examples.runtime) Examples.first_run)
       (snd (main (RT := Examples.runtime) Examples.first_run
               Examples.empty_world))
     = Some (JStr (str "12")).
Proof.
  pose (w2 := snd (get_user_id Examples.first_run (str "Alice")
                     (after_load Examples.empty_world))).
  pose (f := fetch_new_tweets (RT := Examples.runtime) Examples.first_run
               (JStr (str "42")) JNull w2).
  destruct (successful_run (RT := Examples.runtime) Examples.first_run
              Examples.empty_world w2 (snd f) (JObj []) JNull (JStr (str "42"))
              (JStr (str "12"))
              [Examples.tweet "10" (str "a"); Examples.tweet "11" (str "c");
               Examples.tweet "12" (str "b")]
              [str "- 2024-01-01T00:00:00+00:00 | a" ++ [LF]
                 ++ str "  https://x.com/Alice/status/10";
               str "- 2024-01-01T00:00:00+00:00 | c" ++ [LF]
                 ++ str "  https://x.com/Alice/status/11";
               str "- 2024-01-01T00:00:00+00:00 | b" ++ [LF]
                 ++ str "  https://x.com/Alice/status/12"])
    as (H0 & _ & _ & Hsince).
  - exists (JObj []). by vm_compute.
  - reflexivity.
  - reflexivity.
  - discriminate.
  - reflexivity.
  - reflexivity.
  - reflexivity.
  - intros s. reflexivity.
  - split; [exact H0 | exact Hsince].
Defined.

(** X18: when the report file cannot be opened (a handle with a slash
    names a directory that does not exist, say), a run whose fetch returned
    posts that all render has by then saved the watermark and printed the
    header and the lines; the exception of [open] then leaves [main]: the
    line naming the report is not printed and the report file is not
    written. *)
Theorem report_open_failure `{RT : PyRuntime} (e : env) (w w2 w3 : world)
    (state last_id user_id newest_id : json) (new_tweets : list json)
    (lines : list pystr) (ex : exn) :
  loads e w state last_id ->
  get_user_id e (HANDLE e) (after_load w) = (Ok user_id, w2) ->
  fetch_new_tweets e user_id last_id w2 = (Ok new_tweets, w3) ->
  new_tweets <> [] ->
  py_item (List.last new_tweets JNull) (str "id") = Ok newest_id ->
  summaries e new_tweets = Ok lines ->
  open_error e (report_name e) = Some ex ->
  fst (main e w) = Raise ex
  /\ printed (new_events (main e) w)
     = summary_header e (length new_tweets) :: lines
  /\ files (snd (main e w)) !! report_name e = files w !! report_name e
  /\ stored_since_id (handle_key e) (snd (main e w)) = Some newest_id.
Proof.
  intros Hl Hu Hf Hne Hn Hs Hopen.
  destruct (main_reports e w w2 w3 state last_id user_id new_tweets Hl Hu Hf Hne)
    as (Hm & Hfiles & evs3 & Hlog3 & Hp3).
  destruct (loads_set_since_id e w state last_id Hl newest_id) as [state' Hset].
  rewrite (report_saves e state state' newest_id _ _ _ Hn Hset) in Hm.
  rewrite (render_open_raises e new_tweets lines ex _ Hs Hopen) in Hm.
  unfold new_events. rewrite Hm. cbn [fst snd files log].
  repeat split.
  - cbn [save_state fs_write_text snd log]. rewrite Hlog3.
    rewrite <- !app_assoc, drop_app_length, !printed_app, Hp3.
    cbn [printed flat_map app]. by rewrite printed_prints.
  - cbn [save_state fs_write_text snd files].
    rewrite lookup_insert_ne, Hfiles; [done|].
    intros Heq. by apply (report_name_not_state_file e).
  - apply (saved_state e _ state state' newest_id); [|done].
    unfold persisted. simpl. by rewrite lookup_insert_eq.
Qed.

Lemma report_open_failure_witness :
  fst (main (RT := Examples.runtime) MoreExamples.slash_run Examples.empty_world)
  = Raise FileNotFoundError
  /\ stored_since_id (handle_key (RT := Examples.runtime) MoreExamples.slash_run)
       (snd (main (RT := Examples.runtime) MoreExamples.slash_run
               Examples.empty_world))
     = Some (JStr (str "10")).
Proof.
  pose (w2 := snd (get_user_id MoreExamples.slash_run (str "a/b")
                     (after_load Examples.empty_world))).
  pose (f := fetch_new_tweets (RT := Examples.runtime) MoreExamples.slash_run
               (JStr (str "42")) JNull w2).
  destruct (report_open_failure (RT := Examples.runtime) MoreExamples.slash_run
              Examples.empty_world w2 (snd f) (JObj []) JNull (JStr (str "42"))
              (JStr (str "10")) [Examples.tweet "10" (str "gm")]
              [str "- 2024-01-01T00:00:00+00:00 | gm" ++ [LF]
                 ++ str "  https://x.com/a/b/status/10"]
              FileNotFoundError)
    as (H0 & _ & _ & Hsince).
  - exists (JObj []). by vm_compute.
  - reflexivity.
  - reflexivity.
  - discriminate.
  - reflexivity.
  - reflexivity.
  - reflexivity.
  - split; [exact H0 | exact Hsince].
Defined.

(** X8: the watermark is advanced before the summary is rendered.  When
    the fetch returned posts and one of them does not render, the exception
    leaves [main] (exit status 1), no report file is written, and yet the
    [since_id] stored is already the identifier of the last post. *)
Theorem watermark_saved_before_render `{RT : PyRuntime} (e : env)
    (w w2 w3 : world) (state last_id user_id newest_id : json)
    (new_tweets : list json) :
  loads e w state last_id ->
  get_user_id e (HANDLE e) (after_load w) = (Ok user_id, w2) ->
  fetch_new_tweets e user_id last_id w2 = (Ok new_tweets, w3) ->
  py_item (List.last new_tweets JNull) (str "id") = Ok newest_id ->
  Exists (fun t => exists ex, summarize e t = Raise ex) new_tweets ->
  (exists ex, fst (main e w) = Raise ex)
  /\ exit_status (fst (main e w)) = 1
  /\ stored_since_id (handle_key e) (snd (main e w)) = Some newest_id
  /\ files (snd (main e w)) !! report_name e = files w !! report_name e.
Proof.
  intros Hl Hu Hf Hn Hex.
  assert (Hne : new_tweets <> []).
  { intros ->. by apply Exists_nil in Hex. }
  destruct (main_reports e w w2 w3 state last_id user_id new_tweets Hl Hu Hf Hne)
    as (Hm & Hfiles & _).
  destruct (loads_set_since_id e w state last_id Hl newest_id) as [state' Hset].
  rewrite (report_saves e state state' newest_id _ _ _ Hn Hset) in Hm.
  destruct (render_raises e new_tweets (snd (save_state state' w3)) Hex)
    as (ex & w' & Hr & Hf').
  rewrite Hm, Hr. cbn [fst snd exit_status]. repeat split.
  - by exists ex.
  - apply (saved_state e w' state state' newest_id); [|done].
    unfold persisted. rewrite Hf'. simpl. by rewrite lookup_insert_eq.
  - rewrite Hf'. simpl. rewrite lookup_insert_ne, Hfiles; [done|].
    intros Heq. by apply (report_name_not_state_file e).
Qed.

Lemma watermark_saved_before_render_witness :
  exit_status (fst (main (RT := Examples.runtime) MoreExamples.undated_run
                      Examples.empty_world)) = 1
  /\ stored_since_id (handle_key (RT := Examples.runtime) MoreExamples.undated_run)
       (snd (main (RT := Examples.runtime) MoreExamples.undated_run
               Examples.empty_world))
     = Some (JStr (str "10")).
Proof.
  pose (w2 := snd (get_user_id MoreExamples.undated_run (str "Alice")
                     (after_load Examples.empty_world))).
  pose (f := fetch_new_tweets (RT := Examples.runtime) MoreExamples.undated_run
               (JStr (str "42")) JNull w2).
  destruct (watermark_saved_before_render (RT := Examples.runtime)
              MoreExamples.undated_run Examples.empty_world w2 (snd f)
              (JObj []) JNull (JStr (str "42")) (JStr (str "10"))
              [MoreExamples.undated_tweet "10"])
    as (_ & Hx & Hsince & _).
  - exists (JObj []). by vm_compute.
  - reflexivity.
  - reflexivity.
  - reflexivity.
  - constructor. by exists (KeyError (str "created_at")).
  - split; [exact Hx | exact Hsince].
Defined.

(** X2: the next run resumes from the post last reported.  After a run
    whose fetch returned posts, any run for a handle with the same
    lower-cased form loads the state and finds, as its last identifier, the
    identifier of the last post of that fetch; when that identifier is
    truthy, the [since_id] parameter of its timeline request is that
    identifier. *)
Theorem next_run_resumes `{RT : PyRuntime} (e e' : env) (w w2 w3 : world)
    (state last_id user_id newest_id : json) (new_tweets : list json) :
  loads e w state last_id ->
  get_user_id e (HANDLE e) (after_load w) = (Ok user_id, w2) ->
  fetch_new_tweets e user_id last_id w2 = (Ok new_tweets, w3) ->
  new_tweets <> [] ->
  py_item (List.last new_tweets JNull) (str "id") = Ok newest_id ->
  handle_key e' = handle_key e ->
  (exists state', loads e' (snd (main e w)) state' newest_id)
  /\ (truthy newest_id = true ->
      forall user_id' h,
        dict_get (str "since_id") (params (tweets_request user_id' newest_id h))
        = Some newest_id).
Proof.
  intros Hl Hu Hf Hne Hn He'. split.
  - destruct (main_reports e w w2 w3 state last_id user_id new_tweets Hl Hu Hf Hne)
      as (Hm & Hfiles & _).
    destruct (loads_set_since_id e w state last_id Hl newest_id) as [state' Hset].
    exists state'.
    apply (saved_state e _ state state' newest_id); [|done|done].
    unfold persisted. rewrite Hm, report_state_file. unfold rbind.
    by rewrite Hn, Hset.
  - intros Ht user_id' h. by apply tweets_params_since.
Qed.

Lemma next_run_resumes_witness :
  exists state',
    loads (RT := Examples.runtime) Examples.second_run
      (snd (main (RT := Examples.runtime) Examples.first_run Examples.empty_world))
      state' (JStr (str "12")).
Proof.
  pose (w2 := snd (get_user_id Examples.first_run (str "Alice")
                     (after_load Examples.empty_world))).
  pose (f := fetch_new_tweets (RT := Examples.runtime) Examples.first_run
               (JStr (str "42")) JNull w2).
  apply (proj1 (next_run_resumes (RT := Examples.runtime) Examples.first_run
                  Examples.second_run Examples.empty_world w2 (snd f)
                  (JObj []) JNull (JStr (str "42")) (JStr (str "12"))
                  [Examples.tweet "10" (str "a"); Examples.tweet "11" (str "c");
                   Examples.tweet "12" (str "b")]
                  ltac:(exists (JObj []); by vm_compute)
                  eq_refl eq_refl ltac:(discriminate) eq_refl eq_refl)).
Defined.

(** ** The order of the fetched posts *)

Section FetchOrder.
Context `{RT : PyRuntime}.

Lemma tweet_id_py_item (t v : json) :
  tweet_id t = Some v -> py_item t (str "id") = Ok v.
Proof.
  unfold tweet_id, py_item. destruct t; try done. by intros ->.
Qed.

Lemma id_keys_total (l : list json) :
  Forall has_str_id l -> exists keyed, id_keys l = Ok keyed.
Proof.
  induction 1 as [|t l [s Hs] _ [keyed IH]]; simpl.
  - by eexists.
  - rewrite (tweet_id_py_item _ _ Hs), IH. by eexists.
Qed.

(** With string identifiers [sort_by_id] does not raise. *)
Lemma sort_by_id_total (l : list json) :
  Forall has_str_id l -> exists sorted, sort_by_id l = Ok sorted.
Proof.
  intros Hl. destruct (id_keys_total l Hl) as [keyed Hk].
  unfold sort_by_id. rewrite Hk. simpl.
  destruct (id_keys_ok l keyed Hk) as [Hsnd Hid].
  destruct (str_keys_total keyed) as [sk Hsk]; [|rewrite Hsk; by eexists].
  apply List.Forall_forall. intros [k t] Hin.
  rewrite List.Forall_forall in Hl, Hid.
  specialize (Hid _ Hin). simpl in Hid.
  destruct (Hl t) as [s Hs].
  - rewrite <- Hsnd. by apply (in_map snd) in Hin.
  - exists s. simpl. congruence.
Qed.

Lemma sorted_keys_ids (sk : list (pystr * json)) :
  Sorted key_le sk ->
  Forall (fun kt => tweet_id (snd kt) = Some (JStr (fst kt))) sk ->
  Sorted id_str_le (List.map snd sk).
Proof.
  induction 1 as [|[k t] sk Hs IH Hhd]; intros Hid; simpl; [constructor|].
  apply Forall_cons_1 in Hid as [Ht Hid].
  constructor; [by apply IH|].
  destruct Hhd as [|[k' t'] sk' Hle]; simpl; constructor.
  apply Forall_cons_1 in Hid as [Ht' _].
  by exists k, k'.
Qed.

Lemma id_str_le_num (n : nat) (a b : json) :
  n <> 0%nat -> has_num_id n a -> has_num_id n b ->
  id_str_le a b -> id_num_le a b.
Proof.
  intros Hn (sa & va & Ha & Hla & Hva) (sb & vb & Hb & Hlb & Hvb)
    (s1 & s2 & H1 & H2 & Hlt).
  rewrite Ha in H1. rewrite Hb in H2.
  injection H1 as <-. injection H2 as <-.
  exists va, vb. unfold tweet_id_num. rewrite Ha, Hb.
  destruct sa as [|ca sa]; [simpl in Hla; congruence|].
  destruct sb as [|cb sb]; [simpl in Hlb; congruence|].
  repeat split; [done | done |].
  rewrite (str_ltb_numeric _ _ vb va) in Hlt by congruence.
  by apply N.ltb_ge in Hlt.
Qed.

Lemma id_num_le_trans (a b c : json) :
  id_num_le a b -> id_num_le b c -> id_num_le a c.
Proof.
  intros (x & y & Hx & Hy & Hxy) (y' & z & Hy' & Hz & Hyz).
  exists x, z. repeat split; [done | done |].
  rewrite Hy in Hy'. injection Hy' as <-. lia.
Qed.

(** In a list sorted for a transitive order, the last item is above every
    item that is above itself. *)
Lemma sorted_last_max (l : list json) :
  Sorted id_num_le l ->
  forall t, In t l -> id_num_le t t -> id_num_le t (List.last l JNull).
Proof.
  induction 1 as [|a l Hs IH Hhd]; intros t Hin Ht; [done|].
  destruct l as [|b l]; [by destruct Hin as [<-|[]]|].
  change (List.last (a :: b :: l) JNull) with (List.last (b :: l) JNull).
  apply HdRel_inv in Hhd.
  assert (Hb : id_num_le b (List.last (b :: l) JNull)).
  { apply IH; [by left|]. destruct Hhd as (x & y & _ & Hy & _).
    exists y, y. repeat split; [done | done | lia]. }
  destruct Hin as [<-|Hin];
    [exact (id_num_le_trans _ _ _ Hhd Hb) | by apply IH].
Qed.

End FetchOrder.

(** X10: with a token and an answer that is neither 403 nor an error
    status, whose body lists posts that all have a string identifier,
    [fetch_new_tweets] returns (it does not raise) the posts of the answer,
    all of them and no other (a permutation), in an order in which no post
    is followed by one with a smaller identifier in the order of strings. *)
Theorem fetch_returns_sorted_permutation `{RT : PyRuntime} (e : env)
    (user_id since_id : json) (w : world) (h : list (pystr * pystr))
    (r : response) (d : dict) (l : list json) :
  headers e = Ok h ->
  network e (tweets_request user_id since_id h) = Ok r ->
  status_code r <> 403 ->
  is_error_status (status_code r) = false ->
  body r = Some (JObj d) ->
  dict_get (str "data") d = Some (JArr l) ->
  Forall has_str_id l ->
  exists sorted,
    fst (fetch_new_tweets e user_id since_id w) = Ok sorted
    /\ Permutation sorted l
    /\ Sorted id_str_le sorted.
Proof.
  intros Hh Hr H403 Herr Hb Hd Hl.
  destruct (sort_by_id_total l Hl) as [sorted Hs].
  exists sorted. rewrite (fetch_response e h r) by done.
  destruct (Z.eqb_spec (status_code r) 403); [done|].
  unfold raise_for_status, response_json, py_get, rbind.
  rewrite Herr, Hb, Hd. split; [done|]. split.
  - by apply sort_by_id_perm.
  - destruct (sort_by_id_sorted l sorted Hl Hs) as (sk & -> & Hsorted & Hid).
    by apply sorted_keys_ids.
Qed.

Lemma fetch_returns_sorted_permutation_witness :
  exists sorted,
    fst (fetch_new_tweets (RT := Examples.runtime) Examples.first_run
           (JStr (str "42")) JNull Examples.empty_world) = Ok sorted
    /\ Permutation sorted
         [Examples.tweet "10" (str "a"); Examples.tweet "12" (str "b");
          Examples.tweet "11" (str "c")]
    /\ Sorted id_str_le sorted.
Proof.
  apply (fetch_returns_sorted_permutation (RT := Examples.runtime)
           Examples.first_run (JStr (str "42")) JNull Examples.empty_world
           Examples.bearer_header
           {| status_code := 200;
              body := Some (Examples.page
                              [Examples.tweet "10" (str "a");
                               Examples.tweet "12" (str "b");
                               Examples.tweet "11" (str "c")]) |}
           [(str "data", JArr [Examples.tweet "10" (str "a");
                               Examples.tweet "12" (str "b");
                               Examples.tweet "11" (str "c")])]);
    try reflexivity; try done.
  repeat constructor; by eexists.
Defined.

(** X11: when the posts of the answer all have numeric identifiers of one
    length, [sort_by_id] returns them oldest first: no post is followed by
    one with a smaller number, and the last post, whose identifier becomes
    the watermark, has the largest number of all. *)
Theorem sort_by_id_numeric `{RT : PyRuntime} (n : nat) (l : list json) :
  n <> 0%nat ->
  Forall (has_num_id n) l ->
  exists sorted,
    sort_by_id l = Ok sorted
    /\ Permutation sorted l
    /\ Sorted id_num_le sorted
    /\ forall t, In t l -> id_num_le t (List.last sorted JNull).
Proof.
  intros Hn Hl.
  assert (Hstr : Forall has_str_id l).
  { eapply List.Forall_impl; [|exact Hl]. intros t (s & v & Ht & _). by exists s. }
  destruct (sort_by_id_total l Hstr) as [sorted Hs].
  pose proof (sort_by_id_perm l sorted Hstr Hs) as Hperm.
  destruct (sort_by_id_sorted l sorted Hstr Hs) as (sk & Heq & Hsorted & Hid).
  pose proof (sorted_keys_ids sk Hsorted Hid) as Hsl. rewrite <- Heq in Hsl.
  assert (Hnum : Forall (has_num_id n) sorted) by (by rewrite Hperm).
  assert (Hsn : Sorted id_num_le sorted).
  { clear -Hn Hsl Hnum. induction Hsl as [|a s Hs IH Hhd]; [constructor|].
    apply Forall_cons_1 in Hnum as [Ha Hnum].
    constructor; [by apply IH|].
    destruct Hhd as [|b s' Hab]; constructor.
    apply Forall_cons_1 in Hnum as [Hb _].
    by apply (id_str_le_num n). }
  exists sorted. repeat split; try done.
  intros t Hin. apply sorted_last_max; [done | by rewrite Hperm |].
  rewrite List.Forall_forall in Hl. destruct (Hl t Hin) as (s & v & Ht & Hlen & Hv).
  exists v, v. unfold tweet_id_num. rewrite Ht.
  destruct s as [|c s]; [simpl in Hlen; congruence|].
  repeat split; [done | done | lia].
Qed.

Lemma sort_by_id_numeric_witness :
  exists sorted,
    sort_by_id (RT := Examples.runtime)
      [Examples.tweet "10" (str "a"); Examples.tweet "12" (str "b");
       Examples.tweet "11" (str "c")] = Ok sorted
    /\ Permutation sorted
         [Examples.tweet "10" (str "a"); Examples.tweet "12" (str "b");
          Examples.tweet "11" (str "c")]
    /\ Sorted id_num_le sorted
    /\ forall t,
         In t [Examples.tweet "10" (str "a"); Examples.tweet "12" (str "b");
               Examples.tweet "11" (str "c")] ->
         id_num_le t (List.last sorted JNull).
Proof.
  apply (sort_by_id_numeric (RT := Examples.runtime) 2); [done|].
  repeat constructor; by eexists _, _.
Defined.

(** X12: with a token and an answer that is neither 403 nor an error
    status, whose body lists objects of which one has no [id],
    [fetch_new_tweets] raises [KeyError] for that key. *)
Theorem fetch_post_without_id `{RT : PyRuntime} (e : env)
    (user_id since_id : json) (w : world) (h : list (pystr * pystr))
    (r : response) (d : dict) (l : list json) :
  headers e = Ok h ->
  network e (tweets_request user_id since_id h) = Ok r ->
  status_code r <> 403 ->
  is_error_status (status_code r) = false ->
  body r = Some (JObj d) ->
  dict_get (str "data") d = Some (JArr l) ->
  Forall (fun t => exists fields, t = JObj fields) l ->
  Exists (fun t => tweet_id t = None) l ->
  fst (fetch_new_tweets e user_id since_id w) = Raise (KeyError (str "id")).
Proof.
  intros Hh Hr H403 Herr Hb Hd Hobj Hex.
  rewrite (fetch_response e h r) by done.
  destruct (Z.eqb_spec (status_code r) 403); [done|].
  unfold raise_for_status, response_json, py_get, rbind.
  rewrite Herr, Hb, Hd. unfold sort_by_id.
  assert (Hk : id_keys l = Raise (KeyError (str "id"))); [|by rewrite Hk].
  clear -Hobj Hex. induction Hobj as [|t l [fields ->] _ IH].
  - by apply Exists_nil in Hex.
  - simpl. unfold rbind.
    destruct (dict_get (str "id") fields) as [v|] eqn:Hv; [|done].
    apply Exists_cons in Hex as [Hex|Hex].
    + simpl in Hex. congruence.
    + by rewrite (IH Hex).
Qed.

Lemma fetch_post_without_id_witness :
  fst (fetch_new_tweets (RT := Examples.runtime)
         (Examples.env_of (Some (str "token"))
            (Examples.timeline [JObj [(str "text", JStr (str "gm"))]]))
         (JStr (str "42")) JNull Examples.empty_world)
  = Raise (KeyError (str "id")).
Proof.
  apply (fetch_post_without_id (RT := Examples.runtime) _ _ _ _
           Examples.bearer_header
           {| status_code := 200;
              body := Some (Examples.page [JObj [(str "text", JStr (str "gm"))]]) |}
           [(str "data", JArr [JObj [(str "text", JStr (str "gm"))]])]
           [JObj [(str "text", JStr (str "gm"))]]);
    try reflexivity; try done.
  - repeat constructor. by eexists.
  - by constructor.
Defined.

(** ** Rendering a post *)

(** X13: [summarize] returns a line exactly for a post that is an object
    with a [created_at] that [wib_time] converts, a [text] that is a string
    or is missing (then taken as empty), and an [id]; the line is the
    converted time, the preview of the cleaned text and, on a second line
    indented by two blanks, the link made of the handle and the [id]. *)
Theorem summarize_ok_iff `{RT : PyRuntime} (e : env) (t : json) (line : pystr) :
  summarize e t = Ok line
  <-> exists fields created ts text id,
        t = JObj fields
        /\ dict_get (str "created_at") fields = Some created
        /\ wib_time created = Ok ts
        /\ (dict_get (str "text") fields = Some (JStr text)
            \/ dict_get (str "text") fields = None /\ text = [])
        /\ dict_get (str "id") fields = Some id
        /\ line = str "- " ++ ts ++ str " | " ++ preview_of (clean_text text)
                  ++ [LF] ++ str "  "
                  ++ (str "https://x.com/" ++ HANDLE e ++ str "/status/"
                      ++ fmt id).
Proof.
  unfold summarize, py_item, py_get, rbind. split.
  - destruct t as [| | | | |fields]; try done.
    destruct (dict_get (str "created_at") fields) as [created|] eqn:Hc; [|done].
    destruct (dict_get (str "text") fields) as [raw|] eqn:Ht.
    + destruct raw as [| | |text| |]; try done.
      destruct (dict_get (str "id") fields) as [id|] eqn:Hi; [|done].
      destruct (wib_time created) as [ts|] eqn:Hw; [|done].
      intros [= <-]. exists fields, created, ts, text, id.
      repeat split; auto.
    + destruct (dict_get (str "id") fields) as [id|] eqn:Hi; [|done].
      destruct (wib_time created) as [ts|] eqn:Hw; [|done].
      intros [= <-]. exists fields, created, ts, [], id.
      repeat split; auto.
  - intros (fields & created & ts & text & id & -> & Hc & Hw & Ht & Hi & ->).
    rewrite Hc, Hi, Hw. by destruct Ht as [-> | [-> ->]].
Qed.

(** X14: [wib_time] reads a trailing [Z] as the offset [+00:00]: for a
    text without [Z], the time followed by [Z] is converted as the time
    followed by [+00:00] is.  A value that is not a string has no
    [replace]: [AttributeError]. *)
Theorem wib_time_utc_suffix `{RT : PyRuntime} (s : pystr) :
  ~ In 90%N s ->
  wib_time (JStr (s ++ [90%N])) = wib_time (JStr (s ++ str "+00:00"))
  /\ wib_time (JStr (s ++ [90%N]))
     = (dt <~ fromisoformat (s ++ str "+00:00") ;;
        wib <~ add_hours dt 7 ;;
        Ok (strftime wib (str "%Y-%m-%d %H:%M:%S WIB")))
  /\ forall v, (forall s', v <> JStr s') ->
               wib_time v = Raise (AttributeError (str "replace")).
Proof.
  intros Hz.
  assert (Hs : replace_char 90%N (str "+00:00") s = s).
  { clear -Hz. induction s as [|c s IH]; [done|]. simpl.
    destruct (N.eqb_spec c 90) as [->|_].
    - exfalso. apply Hz. by left.
    - rewrite IH; [done|]. intros Hin. apply Hz. by right. }
  unfold wib_time, replace_char in *. rewrite !flat_map_app, Hs.
  repeat split. intros v Hv. destruct v; try done. by destruct (Hv s0).
Qed.

Lemma wib_time_utc_suffix_witness :
  wib_time (RT := Examples.runtime) (JStr (str "2024-01-01T00:00:00" ++ [90%N]))
  = wib_time (RT := Examples.runtime)
      (JStr (str "2024-01-01T00:00:00" ++ str "+00:00")).
Proof.
  apply (wib_time_utc_suffix (RT := Examples.runtime) (str "2024-01-01T00:00:00")).
  vm_compute. intros H. repeat (destruct H as [H|H]; [discriminate|]). exact H.
Defined.

(** ** The timeline request *)

(** X15: with a token, [fetch_new_tweets] sends one request, to the
    timeline of the given user under the base address; it asks for at most
    25 posts without retweets and replies, and it carries the parameter
    [since_id] exactly when the identifier it is given is truthy (so not for
    [None], an empty string or zero), with that identifier as its value. *)
Theorem fetch_request_shape `{RT : PyRuntime} (e : env) (user_id since_id : json)
    (w : world) (h : list (pystr * pystr)) :
  headers e = Ok h ->
  exists req,
    new_events (fetch_new_tweets e user_id since_id) w = [NetGet req]
    /\ url req = BASE ++ str "/users/" ++ fmt user_id ++ str "/tweets"
    /\ dict_get (str "max_results") (params req) = Some (JInt 25)
    /\ dict_get (str "exclude") (params req)
       = Some (JStr (str "retweets,replies"))
    /\ dict_get (str "since_id") (params req)
       = (if truthy since_id then Some since_id else None).
Proof.
  intros Hh. exists (tweets_request user_id since_id h). split.
  - apply new_events_app. by rewrite (fetch_sent e h).
  - unfold tweets_request, tweets_params. cbn [url params].
    destruct (truthy since_id); repeat split;
      try (by rewrite dict_get_set_ne); apply dict_get_set_eq.
Qed.

Lemma fetch_request_shape_witness :
  exists req,
    new_events (fetch_new_tweets (RT := Examples.runtime) Examples.first_run
                  (JStr (str "42")) (JStr [])) Examples.empty_world
    = [NetGet req]
    /\ dict_get (str "since_id") (params req) = None.
Proof.
  destruct (fetch_request_shape (RT := Examples.runtime) Examples.first_run
              (JStr (str "42")) (JStr []) Examples.empty_world
              Examples.bearer_header eq_refl)
    as (req & Hev & _ & _ & _ & Hsince).
  exists req. split; [exact Hev | exact Hsince].
Defined.

(** ** The exit status *)

Section ExitStatus.
Context `{RT : PyRuntime}.
Variable e : env.

Lemma zero_one_bind {A : Type} (m : Py A) (k : A -> Py Z) (w : world) :
  (forall a w', zero_one_or_raise (fst (k a w'))) ->
  zero_one_or_raise (fst (bind m k w)).
Proof.
  intros Hk. unfold bind. destruct (m w) as [[a|ex] w']; [apply Hk|].
  right. right. by exists ex.
Qed.

Lemma zero_one_main (w : world) : zero_one_or_raise (fst (main e w)).
Proof.
  unfold main.
  apply zero_one_bind. intros state w1.
  apply zero_one_bind. intros rec w2.
  apply zero_one_bind. intros last_id w3.
  apply zero_one_bind. intros [user_id|ex] w4.
  - apply zero_one_bind. intros [[|t ts]|ex] w5.
    + apply zero_one_bind. intros ? ?. by left.
    + unfold report, render. repeat (apply zero_one_bind; intros ? ?).
      by left.
    + apply zero_one_bind. intros ? ?. right. by left.
  - apply zero_one_bind. intros ? ?. right. by left.
Qed.

(** [report] has no [return 1]. *)
Lemma zero_bind {A : Type} (m : Py A) (k : A -> Py Z) (w : world) :
  (forall a w', fst (k a w') = Ok 0 \/ exists ex, fst (k a w') = Raise ex) ->
  fst (bind m k w) = Ok 0 \/ exists ex, fst (bind m k w) = Raise ex.
Proof.
  intros Hk. unfold bind. destruct (m w) as [[a|ex] w']; [apply Hk|].
  right. by exists ex.
Qed.

Lemma report_zero (state : json) (key : pystr) (new_tweets : list json)
    (w : world) :
  fst (report e state key new_tweets w) = Ok 0
  \/ exists ex, fst (report e state key new_tweets w) = Raise ex.
Proof.
  unfold report, render. repeat (apply zero_bind; intros ? ?). by left.
Qed.

End ExitStatus.

(** X16: [main] returns 0 or 1, or an exception leaves it; and when it
    returns 1 no file has been changed: the watermark is as it was. *)
Theorem main_returns_zero_or_one `{RT : PyRuntime} (e : env) (w : world) :
  fst (main e w) = Ok 0
  \/ (fst (main e w) = Ok 1 /\ files (snd (main e w)) = files w)
  \/ exists ex, fst (main e w) = Raise ex.
Proof.
  destruct (fst (main e w)) as [n|ex] eqn:Hm; [|right; right; by exists ex].
  destruct (zero_one_main e w) as [H | [H | [ex H]]]; rewrite Hm in H;
    [by left | | done].
  right. left. split; [done|].
  destruct (main_state_file e w) as [Hf | Hsaved]; [done|].
  destruct Hsaved as (state & last_id & user_id & w2 & w3 & t & ts & newest_id
                      & state' & Hl & Hu & Hf & _).
  rewrite (main_loaded e w state last_id Hl) in Hm.
  rewrite (bind_ok _ _ _ _ _ (try_eq _ _ _ _ Hu)) in Hm.
  rewrite (bind_ok _ _ _ _ _ (try_eq _ _ _ _ Hf)) in Hm.
  destruct (report_zero e state (handle_key e) (t :: ts) w3) as [H0 | [ex H0]];
    rewrite H0 in Hm; [|done].
  rewrite H in Hm. discriminate.
Qed.

(** ** A state file that is JSON but not the expected mapping *)

(** X17: when the state file holds JSON that is not an object, or an
    object in which the record of the handle is not an object, the first
    statements of [main] raise [AttributeError] (there is no [get]): the
    run ends with exit status 1 having only looked at and read the state
    file; nothing is printed, no request is sent, no file is changed. *)
Theorem malformed_state_raises `{RT : PyRuntime} (e : env) (w : world) (v : json) :
  persisted w = Some v ->
  (forall d, v <> JObj d)
  \/ (exists d x,
        v = JObj d /\ dict_get (handle_key e) d = Some x
        /\ forall rec, x <> JObj rec) ->
  main e w = (Raise (AttributeError (str "get")), after_load w)
  /\ exit_status (fst (main e w)) = 1
  /\ new_events (main e) w = load_events w
  /\ files (snd (main e w)) = files w.
Proof.
  intros Hp Hbad.
  assert (Hm : main e w = (Raise (AttributeError (str "get")), after_load w)).
  { unfold main. unfold bind at 1. rewrite (load_state_persisted w v Hp).
    unfold bind at 1, lift at 1. fold (handle_key e).
    destruct Hbad as [Hv | (d & x & -> & Hx & Hrec)].
    - destruct v as [| | | | |d]; try done. by destruct (Hv d).
    - simpl. rewrite Hx. unfold bind at 1, lift at 1.
      destruct x as [| | | | |rec]; try done. by destruct (Hrec rec). }
  unfold new_events. rewrite Hm. simpl. by rewrite drop_app_length.
Qed.

Lemma malformed_state_raises_witness :
  main (RT := Examples.runtime) Examples.first_run
    (Examples.world_with (Json (JArr [])))
  = (Raise (AttributeError (str "get")),
     after_load (Examples.world_with (Json (JArr [])))).
Proof.
  apply (malformed_state_raises (RT := Examples.runtime) Examples.first_run
           (Examples.world_with (Json (JArr []))) (JArr []) eq_refl).
  left. intros d. discriminate.
Defined.
